(** * AWX exporter: a shallow embedding of the polling and metrics pipeline

    The development follows the Go sources:
    - [models.go]   the decoded API structures;
    - [metrics.go]  the Prometheus families and the three registry helpers;
    - [processor]   host-to-metric transformation ([processHosts] and below);
    - [client]      [buildURL] and [makeAWXRequest];
    - [main.go]     [fetchAndUpdateMetrics] and the collection loop;
    - [config.go]   environment-driven configuration;
    - the job-template exporter variant (module [JobTemplates]);
    - the earlier single-file host exporter (module [Legacy]).

    The exporter only ever writes to the Prometheus registry, it never reads
    it back.  Every function is therefore embedded as the sequence of
    registry operations it performs (a writer monad over [Op]), and [exec]
    gives the effect of such a sequence on a [Registry].  Gauge values are
    [float64] in the source; all values written are 0, 1, a host count or
    Unix seconds, and they are kept here as the integers being converted.
    Log output is not modelled. *)

From Stdlib Require Import ZArith Ascii String DecimalString.
From stdpp Require Import base decidable countable gmap strings list fin_maps.

Local Open Scope Z_scope.

(** ** Go library functions used by the exporter *)

(** [strings.HasPrefix(s, p)] *)
Definition HasPrefix (s p : string) : bool := String.prefix p s.

(** [strings.Contains(s, sub)] *)
Fixpoint Contains (s sub : string) : bool :=
  String.prefix sub s ||
  match s with
  | EmptyString => false
  | String _ s' => Contains s' sub
  end.

(** [strconv.Itoa], also [fmt.Sprintf("%d", n)] *)
Definition Itoa (n : Z) : string := NilZero.string_of_int (Z.to_int n).

(** Go's [int] and [int64] on the 64-bit targets the exporter is built for. *)
Definition minInt64 : Z := - 2 ^ 63.
Definition maxInt64 : Z := 2 ^ 63 - 1.

Definition wrap64 (z : Z) : Z := (z + 2 ^ 63) mod 2 ^ 64 - 2 ^ 63.

Definition digitVal (c : ascii) : option Z :=
  let n := Z.of_N (N_of_ascii c) in
  if (48 <=? n) && (n <=? 57) then Some (n - 48) else None.

Fixpoint parseDigits (s : string) (acc : Z) : option Z :=
  match s with
  | EmptyString => Some acc
  | String c s' =>
      match digitVal c with
      | Some d => parseDigits s' (acc * 10 + d)
      | None => None
      end
  end.

(** [strconv.Atoi]: an optional sign, then one or more decimal digits, and
    the value has to fit an [int]. *)
Definition Atoi (s : string) : option Z :=
  match s with
  | EmptyString => None
  | String c rest =>
      let '(neg, digits) :=
        if Ascii.eqb c "-"%char then (true, rest)
        else if Ascii.eqb c "+"%char then (false, rest)
        else (false, s) in
      match digits with
      | EmptyString => None
      | _ =>
          match parseDigits digits 0 with
          | Some n =>
              let v := if neg then - n else n in
              if (minInt64 <=? v) && (v <=? maxInt64) then Some v else None
          | None => None
          end
      end
  end.

(** Results of fallible calls: the error is on the right as in Go's
    [(value, err)] pairs. *)
Inductive result (A E : Type) : Type :=
| Ok (a : A)
| Err (e : E).
Arguments Ok {A E} a.
Arguments Err {A E} e.

(** Errors.  [ErrMsg] stands for an error value with a fixed message
    (library errors, [fmt.Errorf] without arguments); the other
    constructors are the [fmt.Errorf] sites of the client, of [main.go] and
    of the job-template exporter's [loadConfig]. *)
Inductive error : Type :=
| ErrMsg (msg : string)
| ErrCreateRequest (url : string) (cause : error)
| ErrRequestFailed (url : string) (cause : error)
| ErrAPIStatus (code : Z) (status body : string)
| ErrReadBody (url : string) (cause : error)
| ErrHTMLResponse (url : string)
| ErrFetchData (url : string) (cause : error)
| ErrParsingJSON (url : string) (cause : error)
| ErrInvalidInterval (cause : error).

(** The message of an error, [err.Error()]. *)
Fixpoint Error (e : error) : string :=
  match e with
  | ErrMsg msg => msg
  | ErrCreateRequest url cause =>
      "failed to create request for " +:+ url +:+ ": " +:+ Error cause
  | ErrRequestFailed url cause =>
      "request failed for " +:+ url +:+ ": " +:+ Error cause
  | ErrAPIStatus code status body =>
      "API request failed with status " +:+ Itoa code +:+ ": " +:+ status
        +:+ ", body: " +:+ body
  | ErrReadBody url cause =>
      "failed to read response body from " +:+ url +:+ ": " +:+ Error cause
  | ErrHTMLResponse url =>
      "received HTML response instead of JSON from " +:+ url
        +:+ " (likely an error page)"
  | ErrFetchData url cause =>
      "failed to fetch data from " +:+ url +:+ ": " +:+ Error cause
  | ErrParsingJSON url cause =>
      "error parsing JSON from " +:+ url +:+ ": " +:+ Error cause
  | ErrInvalidInterval cause =>
      "invalid SCRAPE_INTERVAL duration: " +:+ Error cause
  end.

(** ** models.go *)

Record AWXConfig : Type := {
  AWXConfig_Host : string;
  AWXConfig_User : string;
  AWXConfig_Password : string;
  AWXConfig_UseHTTP : bool;
  AWXConfig_TLSInsecure : bool
}.

Record Inventory : Type := {
  Inventory_ID : Z;
  Inventory_Name : string
}.

Record Group : Type := {
  Group_ID : Z;
  Group_Name : string
}.

Record Groups : Type := {
  Groups_Count : Z;
  Groups_Results : list Group
}.

Record SummaryFields : Type := {
  SummaryFields_Inventory : Inventory;
  SummaryFields_Groups : Groups
}.

Record Host : Type := {
  Host_ID : Z;
  Host_Created : string;
  Host_Modified : string;
  Host_Name : string;
  Host_Inventory : Z;
  Host_Enabled : bool;
  Host_InstanceID : string;
  Host_HasActiveFailures : bool;
  Host_HasInventorySources : bool;
  Host_AnsibleFactsModified : option string;
  Host_SummaryFields : SummaryFields
}.

Record HostResponse : Type := {
  HostResponse_Count : Z;
  HostResponse_Next : string;
  HostResponse_Previous : string;
  HostResponse_Results : list Host
}.

(** The groups of a host, [host.SummaryFields.Groups.Results]. *)
Definition hostGroups (host : Host) : list Group :=
  Groups_Results (SummaryFields_Groups (Host_SummaryFields host)).

(** The Go library calls whose results the exporter branches on.  They are
    not code of the exporter: the development is parametric in them. *)
Class GoRuntime : Type := {
  (** [time.Parse(time.RFC3339, s)], then [.Unix()] of the result *)
  time_Parse_RFC3339 : string -> result Z error;
  (** [time.ParseDuration(s)], in nanoseconds *)
  time_ParseDuration : string -> result Z error;
  (** [json.Unmarshal(body, &hostResponse)] on a zero [HostResponse] *)
  json_Unmarshal : string -> result HostResponse error;
  (** the error of [http.NewRequestWithContext(ctx, "GET", url, nil)], if any *)
  http_NewRequest : string -> option error
}.

(** ** metrics.go *)

(** The five gauge vectors. *)
Inductive Family : Type :=
| hostInfo
| hostStatus
| hostTimestamps
| hostGroupMembership
| groupInfo.

#[global] Instance Family_eq_dec : EqDecision Family.
Proof. solve_decision. Defined.

Definition Family_to_nat (f : Family) : nat :=
  match f with
  | hostInfo => 0
  | hostStatus => 1
  | hostTimestamps => 2
  | hostGroupMembership => 3
  | groupInfo => 4
  end%nat.

Definition Family_of_nat (n : nat) : Family :=
  match n with
  | 0 => hostInfo
  | 1 => hostStatus
  | 2 => hostTimestamps
  | 3 => hostGroupMembership
  | _ => groupInfo
  end%nat.

#[global] Instance Family_countable : Countable Family.
Proof.
  apply (inj_countable' Family_to_nat Family_of_nat).
  intros []; reflexivity.
Defined.

(** The state of the default registry: one time series per family and
    label-value tuple, the observations of the [scrape_duration_seconds]
    histogram (nanoseconds, oldest first) and the two counters. *)
Record Registry : Type := {
  gauges : gmap (Family * list string) Z;
  scrapeDuration : list Z;
  scrapeErrors : Z;
  hostsProcessed : Z
}.

Definition emptyRegistry : Registry :=
  {| gauges := ∅; scrapeDuration := []; scrapeErrors := 0; hostsProcessed := 0 |}.

(** The observable operations of the exporter. *)
Inductive Op : Type :=
| GaugeSet (f : Family) (lvs : list string) (v : Z)
    (** [f.WithLabelValues(lvs...).Set(v)] *)
| VecReset (f : Family)             (** [f.Reset()] *)
| ErrorsInc                         (** [scrapeErrors.Inc()] *)
| HostsAdd (n : Z)                  (** [hostsProcessed.Add(float64(n))] *)
| DurationObserve (d : Z)           (** [scrapeDuration.Observe(d.Seconds())] *)
| Fetch (url : string).             (** a call of [makeAWXRequest] on [url] *)

Definition apply (r : Registry) (o : Op) : Registry :=
  match o with
  | GaugeSet f lvs v =>
      {| gauges := <[(f, lvs) := v]> (gauges r);
         scrapeDuration := scrapeDuration r;
         scrapeErrors := scrapeErrors r;
         hostsProcessed := hostsProcessed r |}
  | VecReset f =>
      {| gauges := filter (fun kv => kv.1.1 ≠ f) (gauges r);
         scrapeDuration := scrapeDuration r;
         scrapeErrors := scrapeErrors r;
         hostsProcessed := hostsProcessed r |}
  | ErrorsInc =>
      {| gauges := gauges r;
         scrapeDuration := scrapeDuration r;
         scrapeErrors := scrapeErrors r + 1;
         hostsProcessed := hostsProcessed r |}
  | HostsAdd n =>
      {| gauges := gauges r;
         scrapeDuration := scrapeDuration r;
         scrapeErrors := scrapeErrors r;
         hostsProcessed := hostsProcessed r + n |}
  | DurationObserve d =>
      {| gauges := gauges r;
         scrapeDuration := scrapeDuration r ++ [d];
         scrapeErrors := scrapeErrors r;
         hostsProcessed := hostsProcessed r |}
  | Fetch _ => r
  end.

Definition exec (ops : list Op) (r : Registry) : Registry := foldl apply r ops.

(** The value of one time series, if it is present. *)
Definition series (r : Registry) (f : Family) (lvs : list string) : option Z :=
  gauges r !! (f, lvs).

(** [ResetAllMetrics] *)
Definition ResetAllMetrics : list Op :=
  [VecReset hostInfo; VecReset hostStatus; VecReset hostTimestamps;
   VecReset hostGroupMembership; VecReset groupInfo].

(** [IncrementHostsProcessed] *)
Definition IncrementHostsProcessed (count : nat) : list Op :=
  [HostsAdd (Z.of_nat count)].

(** [RecordScrapeError] *)
Definition RecordScrapeError : list Op := [ErrorsInc].

(** ** Actions: a result together with the operations performed *)

Definition Action (A : Type) : Type := (list Op * A)%type.

Definition ret {A : Type} (a : A) : Action A := ([], a).

Definition bind {A B : Type} (m : Action A) (k : A -> Action B) : Action B :=
  let '(ops, a) := m in
  let '(ops', b) := k a in
  (ops ++ ops', b).

Definition emit (ops : list Op) : Action unit := (ops, tt).

Notation "'let*' x := m 'in' k" := (bind m (fun x => k))
  (at level 10, x pattern, m at level 100, k at level 200, only parsing).

(** [if err := m; err != nil { return err }; k] *)
Definition orReturn (m k : Action (option error)) : Action (option error) :=
  let* err := m in
  match err with
  | Some e => ret (Some e)
  | None => k
  end.

Notation "'check!' m ; k" := (orReturn m k)
  (at level 10, m at level 100, k at level 200, only parsing).

(** ** The processor: hosts to metrics *)

Definition boolToFloat (b : bool) : Z := if b then 1 else 0.

Definition boolToString (b : bool) : string := if b then "true" else "false".

Definition setTimestampMetric `{GoRuntime} (timestampStr id name event : string)
  : Action (option error) :=
  match time_Parse_RFC3339 timestampStr with
  | Err err => ret (Some err)
  | Ok timestamp =>
      let* _ := emit [GaugeSet hostTimestamps [id; name; event] timestamp] in
      ret None
  end.

Definition processHostStatus (host : Host) (idStr : string) : Action (option error) :=
  let activeFailures := boolToFloat (Host_HasActiveFailures host) in
  let inventorySources := boolToFloat (Host_HasInventorySources host) in
  let* _ :=
    if Nat.eqb (length (hostGroups host)) 0 then
      emit [GaugeSet hostStatus [idStr; Host_Name host; "active_failures"; "none"]
              activeFailures;
            GaugeSet hostStatus [idStr; Host_Name host; "inventory_sources"; "none"]
              inventorySources]
    else
      emit (flat_map (fun group =>
              [GaugeSet hostStatus
                 [idStr; Host_Name host; "active_failures"; Group_Name group]
                 activeFailures;
               GaugeSet hostStatus
                 [idStr; Host_Name host; "inventory_sources"; Group_Name group]
                 inventorySources])
              (hostGroups host)) in
  ret None.

Definition processHostTimestamps `{GoRuntime} (host : Host) (idStr : string)
  : Action (option error) :=
  check! setTimestampMetric (Host_Created host) idStr (Host_Name host) "created";
  check! setTimestampMetric (Host_Modified host) idStr (Host_Name host) "modified";
  match Host_AnsibleFactsModified host with
  | Some factsModified =>
      check! setTimestampMetric factsModified idStr (Host_Name host)
               "ansible_facts_modified";
      ret None
  | None => ret None
  end.

Definition processHostGroups (host : Host) (idStr invIDStr : string)
  : Action (option error) :=
  let* _ :=
    emit (flat_map (fun group =>
            let groupIDStr := Itoa (Group_ID group) in
            [GaugeSet hostGroupMembership
               [idStr; Host_Name host; groupIDStr; Group_Name group] 1;
             GaugeSet groupInfo [groupIDStr; Group_Name group; invIDStr] 1])
            (hostGroups host)) in
  ret None.

Definition processHost `{GoRuntime} (host : Host) : Action (option error) :=
  let idStr := Itoa (Host_ID host) in
  let invIDStr :=
    Itoa (Inventory_ID (SummaryFields_Inventory (Host_SummaryFields host))) in
  let enabledStr := boolToString (Host_Enabled host) in
  let* _ :=
    emit [GaugeSet hostInfo
            [idStr; Host_Name host; invIDStr;
             Inventory_Name (SummaryFields_Inventory (Host_SummaryFields host));
             enabledStr; Host_InstanceID host] 1] in
  check! processHostStatus host idStr;
  check! processHostTimestamps host idStr;
  check! processHostGroups host idStr invIDStr;
  ret None.

(** [processHosts]: the error of a host is logged and the loop goes on. *)
Definition processHosts `{GoRuntime} (hosts : list Host) : list Op :=
  let hostCount := length hosts in
  if Nat.eqb hostCount 0 then []
  else flat_map (fun host => fst (processHost host)) hosts
         ++ IncrementHostsProcessed hostCount.

(** ** The HTTP client *)

Definition buildURL (config : AWXConfig) (pathOrURL : string) : string :=
  if HasPrefix pathOrURL "http://" || HasPrefix pathOrURL "https://" then
    pathOrURL
  else if String.eqb pathOrURL "/" || String.eqb pathOrURL "" then
    ""
  else if HasPrefix pathOrURL "/" then
    let protocol := if AWXConfig_UseHTTP config then "http" else "https" in
    protocol +:+ "://" +:+ AWXConfig_Host config +:+ pathOrURL
  else
    let pathOrURL :=
      if negb (HasPrefix pathOrURL "/") then "/" +:+ pathOrURL else pathOrURL in
    let protocol := if AWXConfig_UseHTTP config then "http" else "https" in
    protocol +:+ "://" +:+ AWXConfig_Host config +:+ pathOrURL.

(** What [client.Do] hands back: the status line and the outcome of
    [io.ReadAll(resp.Body)], the bytes read and the read error if any. *)
Record Response : Type := {
  StatusCode : Z;
  Status : string;
  Body : string;
  BodyErr : option error
}.

(** The upstream API during one scrape: the answer to the [n]-th request
    of the scrape (counted from 0) for a URL, and the time the scrape takes
    (nanoseconds). *)
Record Upstream : Type := {
  Do : nat -> string -> result Response error;
  elapsed : Z
}.

Definition StatusOK : Z := 200.

(** [makeAWXRequest]; [config] only supplies the credentials of the request. *)
Definition makeAWXRequest `{GoRuntime} (up : Upstream) (config : AWXConfig)
    (n : nat) (urlStr : string) : Action (result string error) :=
  let* _ := emit [Fetch urlStr] in
  match http_NewRequest urlStr with
  | Some err => ret (Err (ErrCreateRequest urlStr err))
  | None =>
      match Do up n urlStr with
      | Err err => ret (Err (ErrRequestFailed urlStr err))
      | Ok resp =>
          if negb (StatusCode resp =? StatusOK) then
            ret (Err (ErrAPIStatus (StatusCode resp) (Status resp) (Body resp)))
          else
            match BodyErr resp with
            | Some err => ret (Err (ErrReadBody urlStr err))
            | None =>
                let body := Body resp in
                if Nat.ltb 0 (String.length body) && Contains body "<html" then
                  ret (Err (ErrHTMLResponse urlStr))
                else ret (Ok body)
            end
      end
  end.

(** ** main.go *)

(** A call either returns (with or without an error) or is still inside
    its pagination loop when the fuel is used up. *)
Inductive Outcome : Type :=
| Returned (err : option error)
| Looping.

(** The [for nextURL != ""] loop of [fetchAndUpdateMetrics]; [fuel] bounds
    the number of pages and [pageCount] is the loop's counter. *)
Fixpoint fetchLoop `{GoRuntime} (fuel : nat) (up : Upstream) (config : AWXConfig)
    (nextURL : string) (pageCount : nat) : Action Outcome :=
  if String.eqb nextURL "" then ret (Returned None)
  else
    match fuel with
    | O => ret Looping
    | S fuel' =>
        let* resp := makeAWXRequest up config pageCount nextURL in
        match resp with
        | Err err =>
            let* _ := emit RecordScrapeError in
            ret (Returned (Some (ErrFetchData nextURL err)))
        | Ok resp =>
            match json_Unmarshal resp with
            | Err err =>
                let* _ := emit RecordScrapeError in
                ret (Returned (Some (ErrParsingJSON nextURL err)))
            | Ok hostResponse =>
                let* _ := emit (processHosts (HostResponse_Results hostResponse)) in
                fetchLoop fuel' up config
                  (buildURL config (HostResponse_Next hostResponse)) (S pageCount)
            end
        end
    end.

(** [fetchAndUpdateMetrics]: the deferred observation of the duration runs
    when the function returns. *)
Definition fetchAndUpdateMetrics `{GoRuntime} (fuel : nat) (up : Upstream)
    (config : AWXConfig) : Action Outcome :=
  let* _ := emit ResetAllMetrics in
  let* out := fetchLoop fuel up config
                (buildURL config "/api/v2/hosts/?format=json") 0 in
  match out with
  | Returned err =>
      let* _ := emit [DurationObserve (elapsed up)] in
      ret (Returned err)
  | Looping => ret Looping
  end.

(** One collection of [updateMetrics], the initial one or one on a tick. *)
Definition collect `{GoRuntime} (fuel : nat) (up : Upstream) (config : AWXConfig)
  : Action Outcome :=
  let* out := fetchAndUpdateMetrics fuel up config in
  match out with
  | Returned (Some err) =>
      let* _ := emit RecordScrapeError in
      ret out
  | _ => ret out
  end.

(** The collections of [updateMetrics] one after the other; a collection
    that does not return is the last. *)
Fixpoint collections `{GoRuntime} (fuel : nat) (ups : list Upstream)
    (config : AWXConfig) : list Op :=
  match ups with
  | [] => []
  | up :: ups' =>
      match collect fuel up config with
      | (ops, Returned _) => ops ++ collections fuel ups' config
      | (ops, Looping) => ops
      end
  end.

(** [time.NewTicker(d)] panics when [d] is not positive. *)
Definition NewTicker_panics (d : Z) : bool := d <=? 0.

(** [updateMetrics] up to cancellation.  It first creates the ticker: with
    an interval that is not positive this panics, before any collection,
    and no operation is performed.  Otherwise the initial collection runs,
    then one per tick; [ticks] gives the upstream at each tick before
    [ctx.Done()]. *)
Definition updateMetrics `{GoRuntime} (fuel : nat) (initial : Upstream)
    (ticks : list Upstream) (config : AWXConfig) (interval : Z) : list Op :=
  if NewTicker_panics interval then []
  else collections fuel (initial :: ticks) config.

(** ** config.go *)

(** The process environment, as [os.LookupEnv] sees it. *)
Definition Env : Type := string -> option string.

(** [os.Getenv] *)
Definition Getenv (env : Env) (key : string) : string :=
  match env key with
  | Some value => value
  | None => ""
  end.

Definition Second : Z := 1000000000.
Definition Minute : Z := 60 * Second.

Definition defaultScrapeInterval : Z := 5 * Minute.
Definition defaultPort : string := "8080".

Definition getEnvOrDefault (env : Env) (key defaultValue : string) : string :=
  let value := Getenv env key in
  if negb (String.eqb value "") then value else defaultValue.

Definition getEnvAsBool (env : Env) (key : string) (defaultValue : bool) : bool :=
  let value := Getenv env key in
  if negb (String.eqb value "") then String.eqb value "true" else defaultValue.

(** [getScrapeInterval]; the product is an [int64] ([time.Duration]). *)
Definition getScrapeInterval (env : Env) : Z :=
  let value := Getenv env "SCRAPE_INTERVAL" in
  if negb (String.eqb value "") then
    match Atoi value with
    | Some minutes =>
        if 0 <? minutes then wrap64 (minutes * Minute)
        else defaultScrapeInterval
    | None => defaultScrapeInterval
    end
  else defaultScrapeInterval.

Definition getPort (env : Env) : string := getEnvOrDefault env "PORT" defaultPort.

Definition validateConfig (config : AWXConfig) : option error :=
  if String.eqb (AWXConfig_Host config) "" then
    Some (ErrMsg "AWX_HOST environment variable is required")
  else if String.eqb (AWXConfig_User config) "" then
    Some (ErrMsg "AWX_USER environment variable is required")
  else if String.eqb (AWXConfig_Password config) "" then
    Some (ErrMsg "AWX_PASSWORD environment variable is required")
  else None.

(** How the start of a [main] ends: [log.Fatalf] (the process exits with
    the message logged) or the exporter running with its settings. *)
Inductive Startup (C : Type) : Type :=
| Fatal (msg : string)
| Serving (config : C) (scrapeInterval : Z) (port : string).
Arguments Fatal {C} msg.
Arguments Serving {C} config scrapeInterval port.

(** [loadConfig]: [Err] is the message of its [log.Fatalf]. *)
Definition loadConfig (env : Env) : result AWXConfig string :=
  let config :=
    {| AWXConfig_Host := getEnvOrDefault env "AWX_HOST" "";
       AWXConfig_User := getEnvOrDefault env "AWX_USER" "";
       AWXConfig_Password := getEnvOrDefault env "AWX_PASSWORD" "";
       AWXConfig_UseHTTP := getEnvAsBool env "HTTP" false;
       AWXConfig_TLSInsecure := getEnvAsBool env "TLS_INSECURE" false |} in
  match validateConfig config with
  | Some err => Err ("Configuration error: " +:+ Error err)
  | None => Ok config
  end.

(** [main] up to the point where the server and the collection loop start. *)
Definition main (env : Env) : Startup AWXConfig :=
  match loadConfig env with
  | Err msg => Fatal msg
  | Ok config =>
      let scrapeInterval := getScrapeInterval env in
      let port := getPort env in
      Serving config scrapeInterval port
  end.

(** ** The job-template exporter *)

Module JobTemplates.

Record Config : Type := {
  Config_AWXURL : string;
  Config_AWXUsername : string;
  Config_AWXPassword : string;
  Config_ScrapeInterval : Z;
  Config_ListenPort : string;
  Config_InsecureSkipVerify : bool;
  Config_RequestTimeout : Z
}.

Definition getEnv (env : Env) (key fallback : string) : string :=
  match env key with
  | Some value => value
  | None => fallback
  end.

Definition loadConfig `{GoRuntime} (env : Env) : result Config error :=
  let username := Getenv env "AWX_USERNAME" in
  let password := Getenv env "AWX_PASSWORD" in
  if String.eqb username "" || String.eqb password "" then
    Err (ErrMsg "AWX_USERNAME and AWX_PASSWORD must be set")
  else
    let scrapeIntervalStr := getEnv env "SCRAPE_INTERVAL" "24h" in
    match time_ParseDuration scrapeIntervalStr with
    | Err err => Err (ErrInvalidInterval err)
    | Ok scrapeInterval =>
        Ok {| Config_AWXURL := getEnv env "AWX_URL" "https://awx";
              Config_AWXUsername := username;
              Config_AWXPassword := password;
              Config_ScrapeInterval := scrapeInterval;
              Config_ListenPort := ":" +:+ getEnv env "EXPORTER_PORT" "8080";
              Config_InsecureSkipVerify :=
                String.eqb (getEnv env "INSECURE_SKIP_VERIFY" "false") "true";
              Config_RequestTimeout := 30 * Second |}
    end.

(** [main] up to the start of the scraping goroutine and the server. *)
Definition main `{GoRuntime} (env : Env) : Startup Config :=
  match loadConfig env with
  | Err err => Fatal ("Configuration error: " +:+ Error err)
  | Ok appConfig =>
      Serving appConfig (Config_ScrapeInterval appConfig)
        (Config_ListenPort appConfig)
  end.

Record InventorySummary : Type := {
  Inventory_HostsWithFailures : Z;
  Inventory_TotalHosts : Z
}.

Record SummaryFields : Type := {
  SummaryFields_Inventory : InventorySummary
}.

Record JobTemplate : Type := {
  JobTemplate_ID : Z;
  JobTemplate_Name : string;
  JobTemplate_LastJobRun : string;
  JobTemplate_SummaryFields : SummaryFields
}.

Record JobTemplateResponse : Type := {
  JobTemplateResponse_Next : string;
  JobTemplateResponse_Results : list JobTemplate
}.

(** The three gauge vectors of this exporter, all with the label names
    [job_template_id] and [job_template_name]. *)
Inductive Family : Type :=
| jobLastRunTimestamp
| inventoryFailedHosts
| inventoryTotalHosts.

#[global] Instance family_eq_dec : EqDecision Family.
Proof. solve_decision. Defined.

Definition family_to_nat (f : Family) : nat :=
  match f with
  | jobLastRunTimestamp => 0
  | inventoryFailedHosts => 1
  | inventoryTotalHosts => 2
  end%nat.

Definition family_of_nat (n : nat) : Family :=
  match n with
  | 0 => jobLastRunTimestamp
  | 1 => inventoryFailedHosts
  | _ => inventoryTotalHosts
  end%nat.

#[global] Instance family_countable : Countable Family.
Proof.
  apply (inj_countable' family_to_nat family_of_nat).
  intros []; reflexivity.
Defined.

Inductive Op : Type :=
| GaugeSet (f : Family) (lvs : list string) (v : Z)   (** [f.With(labels).Set(v)] *)
| VecReset (f : Family).                              (** [f.Reset()] *)

Definition apply (r : gmap (Family * list string) Z) (o : Op)
  : gmap (Family * list string) Z :=
  match o with
  | GaugeSet f lvs v => <[(f, lvs) := v]> r
  | VecReset f => filter (fun kv => kv.1.1 ≠ f) r
  end.

Definition exec (ops : list Op) (r : gmap (Family * list string) Z)
  : gmap (Family * list string) Z := foldl apply r ops.

(** The body of [for _, template := range response.Results] in
    [scrapeAWX]. *)
Definition scrapeTemplate `{GoRuntime} (template : JobTemplate) : list Op :=
  let labels := [Itoa (JobTemplate_ID template); JobTemplate_Name template] in
  (if negb (String.eqb (JobTemplate_LastJobRun template) "") then
     match time_Parse_RFC3339 (JobTemplate_LastJobRun template) with
     | Ok finishedTime => [GaugeSet jobLastRunTimestamp labels finishedTime]
     | Err _ => []
     end
   else [])
  ++
  let failedHosts :=
    Inventory_HostsWithFailures
      (SummaryFields_Inventory (JobTemplate_SummaryFields template)) in
  let totalHosts :=
    Inventory_TotalHosts
      (SummaryFields_Inventory (JobTemplate_SummaryFields template)) in
  [GaugeSet inventoryFailedHosts labels failedHosts;
   GaugeSet inventoryTotalHosts labels totalHosts].

(** What [scrapeAWX] does with one decoded page. *)
Definition scrapePage `{GoRuntime} (response : JobTemplateResponse) : list Op :=
  flat_map scrapeTemplate (JobTemplateResponse_Results response).

End JobTemplates.

(** ** The earlier single-file host exporter *)

Module Legacy.

(** There [setTimestampMetric] has no result: a timestamp that does not
    parse is logged and the caller goes on. *)
Definition setTimestampMetric `{GoRuntime} (timestampStr id name event : string)
  : list Op :=
  match time_Parse_RFC3339 timestampStr with
  | Err _ => []
  | Ok timestamp => [GaugeSet hostTimestamps [id; name; event] timestamp]
  end.

Definition processHosts `{GoRuntime} (hosts : list Host) : list Op :=
  flat_map (fun host =>
    let idStr := Itoa (Host_ID host) in
    let invIDStr :=
      Itoa (Inventory_ID (SummaryFields_Inventory (Host_SummaryFields host))) in
    let enabled := if Host_Enabled host then "true" else "false" in
    [GaugeSet hostInfo
       [idStr; Host_Name host; invIDStr;
        Inventory_Name (SummaryFields_Inventory (Host_SummaryFields host));
        enabled; Host_InstanceID host] 1;
     GaugeSet hostStatus [idStr; Host_Name host; "active_failures"]
       (boolToFloat (Host_HasActiveFailures host));
     GaugeSet hostStatus [idStr; Host_Name host; "inventory_sources"]
       (boolToFloat (Host_HasInventorySources host))]
    ++ setTimestampMetric (Host_Created host) idStr (Host_Name host) "created"
    ++ setTimestampMetric (Host_Modified host) idStr (Host_Name host) "modified"
    ++ match Host_AnsibleFactsModified host with
       | Some factsModified =>
           setTimestampMetric factsModified idStr (Host_Name host)
             "ansible_facts_modified"
       | None => []
       end
    ++ flat_map (fun group =>
         let groupIDStr := Itoa (Group_ID group) in
         [GaugeSet hostGroupMembership
            [idStr; Host_Name host; groupIDStr; Group_Name group] 1;
          GaugeSet groupInfo [groupIDStr; Group_Name group; invIDStr] 1])
         (hostGroups host))
    hosts.

End Legacy.

(** ** Reading sequences of operations *)

(** The writes to family [f], in order. *)
Definition setsOf (f : Family) (ops : list Op) : list (list string * Z) :=
  flat_map (fun o =>
    match o with
    | GaugeSet f' lvs v => if decide (f' = f) then [(lvs, v)] else []
    | _ => []
    end) ops.

(** The last value written to the series [(f, lvs)], if any. *)
Fixpoint lastSet (f : Family) (lvs : list string) (ops : list Op) : option Z :=
  match ops with
  | [] => None
  | o :: ops' =>
      match lastSet f lvs ops' with
      | Some v => Some v
      | None =>
          match o with
          | GaugeSet f' lvs' v =>
              if decide ((f', lvs') = (f, lvs)) then Some v else None
          | _ => None
          end
      end
  end.

Definition isReset (o : Op) : bool :=
  match o with
  | VecReset _ => true
  | _ => false
  end.

Definition isGaugeSet (o : Op) : bool :=
  match o with
  | GaugeSet _ _ _ => true
  | _ => false
  end.

(** The URLs [makeAWXRequest] was called on, in order. *)
Definition fetches (ops : list Op) : list string :=
  flat_map (fun o => match o with Fetch url => [url] | _ => [] end) ops.

(** How often [scrapeErrors.Inc()] ran. *)
Definition errorsCounted (ops : list Op) : Z :=
  foldr (fun o acc => match o with ErrorsInc => 1 + acc | _ => acc end) 0 ops.

(** The total handed to [hostsProcessed.Add]. *)
Definition hostsAdded (ops : list Op) : Z :=
  foldr (fun o acc => match o with HostsAdd n => n + acc | _ => acc end) 0 ops.

(** The durations observed, in order. *)
Definition observed (ops : list Op) : list Z :=
  flat_map (fun o => match o with DurationObserve d => [d] | _ => [] end) ops.

(** ** Reading the [next] field of a page *)

Definition isAbsolute (next : string) : bool :=
  HasPrefix next "http://" || HasPrefix next "https://".

Definition isSentinel (next : string) : bool :=
  String.eqb next "/" || String.eqb next "".

(** A path resolved against the scheme and host of the configuration. *)
Definition resolveAgainst (config : AWXConfig) (path : string) : string :=
  (if AWXConfig_UseHTTP config then "http" else "https")
    +:+ "://" +:+ AWXConfig_Host config +:+ path.

Definition withLeadingSlash (path : string) : string :=
  if HasPrefix path "/" then path else "/" +:+ path.

Definition startURL (config : AWXConfig) : string :=
  buildURL config "/api/v2/hosts/?format=json".

(** The outcome of fetching and decoding the [n]-th page at [url]. *)
Definition readPage `{GoRuntime} (up : Upstream) (config : AWXConfig) (n : nat)
    (url : string) : result HostResponse error :=
  match snd (makeAWXRequest up config n url) with
  | Err err => Err (ErrFetchData url err)
  | Ok body =>
      match json_Unmarshal body with
      | Err err => Err (ErrParsingJSON url err)
      | Ok page => Ok page
      end
  end.

(** [PagesRead up config url n pages url' n']: starting with request [n] at
    [url], the upstream serves [pages] one after the other, each fetched and
    decoded without error and each reached through the [next] link of the
    one before; the walk then stands at [url'], about to make request [n']. *)
Inductive PagesRead `{GoRuntime} (up : Upstream) (config : AWXConfig)
  : string -> nat -> list HostResponse -> string -> nat -> Prop :=
| PagesRead_nil (url : string) (n : nat) :
    PagesRead up config url n [] url n
| PagesRead_cons (url : string) (n : nat) (page : HostResponse)
    (pages : list HostResponse) (url' : string) (n' : nat) :
    url ≠ "" ->
    readPage up config n url = Ok page ->
    PagesRead up config (buildURL config (HostResponse_Next page)) (S n)
      pages url' n' ->
    PagesRead up config url n (page :: pages) url' n'.

(** What the transformer writes for a sequence of pages. *)
Definition transform `{GoRuntime} (pages : list HostResponse) : list Op :=
  flat_map (fun page => processHosts (HostResponse_Results page)) pages.

(** ** Sample data *)

Definition sampleTime : string := "2024-01-02T03:04:05Z".

Definition sampleInventory : Inventory :=
  {| Inventory_ID := 3; Inventory_Name := "prod" |}.

Definition groupWeb : Group := {| Group_ID := 7; Group_Name := "web" |}.
Definition groupDb : Group := {| Group_ID := 8; Group_Name := "db" |}.

Definition sampleHost (id : Z) (name modified : string) (groups : list Group)
  : Host :=
  {| Host_ID := id;
     Host_Created := sampleTime;
     Host_Modified := modified;
     Host_Name := name;
     Host_Inventory := 3;
     Host_Enabled := true;
     Host_InstanceID := "";
     Host_HasActiveFailures := true;
     Host_HasInventorySources := false;
     Host_AnsibleFactsModified := Some sampleTime;
     Host_SummaryFields :=
       {| SummaryFields_Inventory := sampleInventory;
          SummaryFields_Groups :=
            {| Groups_Count := Z.of_nat (length groups);
               Groups_Results := groups |} |} |}.

Definition hostAlpha : Host := sampleHost 1 "alpha" sampleTime [groupWeb; groupDb].
Definition hostBeta : Host := sampleHost 2 "beta" sampleTime [].
Definition hostGamma : Host := sampleHost 5 "gamma" "yesterday" [groupWeb].

Definition samplePage (next : string) (hosts : list Host) : HostResponse :=
  {| HostResponse_Count := Z.of_nat (length hosts);
     HostResponse_Next := next;
     HostResponse_Previous := "";
     HostResponse_Results := hosts |}.

Definition pageOnly : HostResponse := samplePage "" [hostBeta].
Definition pageFirst : HostResponse :=
  samplePage "/api/v2/hosts/?format=json&page=2" [hostAlpha].

(** A runtime that knows one timestamp, two durations and two bodies. *)
Definition sampleRuntime : GoRuntime :=
  {| time_Parse_RFC3339 s :=
       if String.eqb s sampleTime then Ok 1704164645
       else Err (ErrMsg "cannot parse as RFC3339");
     time_ParseDuration s :=
       if String.eqb s "24h" then Ok (24 * 60 * Minute)
       else if String.eqb s "90s" then Ok (90 * Second)
       else Err (ErrMsg "invalid duration");
     json_Unmarshal body :=
       if String.eqb body "{only page}" then Ok pageOnly
       else if String.eqb body "{first page}" then Ok pageFirst
       else Err (ErrMsg "unexpected end of JSON input");
     http_NewRequest _ := None |}.

Definition sampleConfig : AWXConfig :=
  {| AWXConfig_Host := "awx.example.org";
     AWXConfig_User := "exporter";
     AWXConfig_Password := "secret";
     AWXConfig_UseHTTP := false;
     AWXConfig_TLSInsecure := false |}.

Definition response200 (body : string) : Response :=
  {| StatusCode := 200; Status := "200 OK"; Body := body; BodyErr := None |}.

(** An upstream with a single page holding [hostBeta]. *)
Definition upstreamOnePage : Upstream :=
  {| Do _ _ := Ok (response200 "{only page}"); elapsed := 1200000000 |}.

(** An upstream whose first page holds [hostAlpha] and whose second page is
    cut off in the middle of the body. *)
Definition upstreamCutSecondPage : Upstream :=
  {| Do n _ :=
       match n with
       | O => Ok (response200 "{first page}")
       | _ => Ok (response200 "{results: [")
       end;
     elapsed := 2500000000 |}.

(** An upstream that answers every request with the given status and body. *)
Definition upstreamStatus (code : Z) (status body : string) : Upstream :=
  {| Do _ _ :=
       Ok {| StatusCode := code; Status := status; Body := body;
             BodyErr := None |};
     elapsed := 300000000 |}.

Definition longBody : string := string_of_list_ascii (repeat "x"%char 300).

Definition sampleTemplate (lastJobRun : string) : JobTemplates.JobTemplate :=
  {| JobTemplates.JobTemplate_ID := 11;
     JobTemplates.JobTemplate_Name := "deploy";
     JobTemplates.JobTemplate_LastJobRun := lastJobRun;
     JobTemplates.JobTemplate_SummaryFields :=
       {| JobTemplates.SummaryFields_Inventory :=
            {| JobTemplates.Inventory_HostsWithFailures := 2;
               JobTemplates.Inventory_TotalHosts := 40 |} |} |}.

(** Whether [getScrapeInterval] accepts the value of [SCRAPE_INTERVAL]. *)
Definition acceptedMinutes (value : string) : bool :=
  match Atoi value with
  | Some minutes => 0 <? minutes
  | None => false
  end.

Definition sampleEnv (interval : option string) : Env :=
  fun key =>
    if String.eqb key "AWX_HOST" then Some "awx.example.org"
    else if String.eqb key "AWX_USER" then Some "exporter"
    else if String.eqb key "AWX_USERNAME" then Some "exporter"
    else if String.eqb key "AWX_PASSWORD" then Some "secret"
    else if String.eqb key "SCRAPE_INTERVAL" then interval
    else None.

(** ** The label schemas of metrics.go *)

(** The label names each gauge vector is created with. *)
Definition labelNames (f : Family) : list string :=
  match f with
  | hostInfo =>
      ["id"; "name"; "inventory_id"; "inventory_name"; "enabled"; "instance_id"]
  | hostStatus => ["id"; "name"; "metric"; "group"]
  | hostTimestamps => ["id"; "name"; "event"]
  | hostGroupMembership => ["host_id"; "host_name"; "group_id"; "group_name"]
  | groupInfo => ["group_id"; "group_name"; "inventory_id"]
  end.

(** [WithLabelValues] panics unless it is given one value per label name. *)
Definition labelsMatch (o : Op) : bool :=
  match o with
  | GaugeSet f lvs _ => Nat.eqb (length lvs) (length (labelNames f))
  | _ => true
  end.

(** The values the processor writes: 1 for the info-style families, 0 or 1
    for the status family, any number of seconds for the timestamps. *)
Definition valueInRange (f : Family) (v : Z) : bool :=
  match f with
  | hostInfo | hostGroupMembership | groupInfo => v =? 1
  | hostStatus => (v =? 0) || (v =? 1)
  | hostTimestamps => true
  end.

Definition valueOK (o : Op) : bool :=
  match o with
  | GaugeSet f _ v => valueInRange f v
  | _ => true
  end.

(** A predicate on operations that holds of every gauge write the
    processor can make. *)
Definition HoldsOfWrites (P : Op -> bool) : Prop :=
  (forall a b c d e f, P (GaugeSet hostInfo [a; b; c; d; e; f] 1) = true)
  /\ (forall a b c d flag,
        P (GaugeSet hostStatus [a; b; c; d] (boolToFloat flag)) = true)
  /\ (forall a b c t, P (GaugeSet hostTimestamps [a; b; c] t) = true)
  /\ (forall a b c d, P (GaugeSet hostGroupMembership [a; b; c; d] 1) = true)
  /\ (forall a b c, P (GaugeSet groupInfo [a; b; c] 1) = true).

(** The label values of the info series of a host. *)
Definition hostInfoLabels (host : Host) : list string :=
  [Itoa (Host_ID host); Host_Name host;
   Itoa (Inventory_ID (SummaryFields_Inventory (Host_SummaryFields host)));
   Inventory_Name (SummaryFields_Inventory (Host_SummaryFields host));
   boolToString (Host_Enabled host); Host_InstanceID host].

(** The timestamps of a host that are present, with their event names, in
    the order [processHostTimestamps] goes through them. *)
Definition timestampFields (host : Host) : list (string * string) :=
  [(Host_Created host, "created"); (Host_Modified host, "modified")]
  ++ match Host_AnsibleFactsModified host with
     | Some factsModified => [(factsModified, "ansible_facts_modified")]
     | None => []
     end.

(** The fields before the first one that does not parse, with their
    seconds. *)
Fixpoint leadingParsed `{GoRuntime} (fields : list (string * string))
  : list (string * Z) :=
  match fields with
  | [] => []
  | (timestampStr, event) :: fields' =>
      match time_Parse_RFC3339 timestampStr with
      | Ok timestamp => (event, timestamp) :: leadingParsed fields'
      | Err _ => []
      end
  end.

(** The error of the first field that does not parse. *)
Fixpoint firstParseError `{GoRuntime} (fields : list (string * string))
  : option error :=
  match fields with
  | [] => None
  | (timestampStr, _) :: fields' =>
      match time_Parse_RFC3339 timestampStr with
      | Ok _ => firstParseError fields'
      | Err err => Some err
      end
  end.

(** ** Reading collections *)

Definition hasReturned (out : Outcome) : bool :=
  match out with
  | Returned _ => true
  | Looping => false
  end.

Definition hasFailed (out : Outcome) : bool :=
  match out with
  | Returned (Some _) => true
  | _ => false
  end.

(** ** Reading the environment *)

(** The three required variables are set and not empty. *)
Definition credentialsPresent (env : Env) : bool :=
  negb (String.eqb (Getenv env "AWX_HOST") "")
  && negb (String.eqb (Getenv env "AWX_USER") "")
  && negb (String.eqb (Getenv env "AWX_PASSWORD") "").

(** The largest number of minutes whose nanoseconds fit an [int64]. *)
Definition maxMinutes : Z := 153722867.

(** The label values of the series of a job template. *)
Definition templateLabels (template : JobTemplates.JobTemplate) : list string :=
  [Itoa (JobTemplates.JobTemplate_ID template);
   JobTemplates.JobTemplate_Name template].

(** ** The earlier single-file host exporter: client and loop *)

Module LegacyWalker.

(** There [buildURL] always prefixes scheme and host. *)
Definition buildURL (config : AWXConfig) (path : string) : string :=
  let protocol := if AWXConfig_UseHTTP config then "http" else "https" in
  protocol +:+ "://" +:+ AWXConfig_Host config +:+ path.

(** Library errors are passed on as they are; the status error is a plain
    message. *)
Definition makeAWXRequest `{GoRuntime} (up : Upstream) (config : AWXConfig)
    (n : nat) (url : string) : Action (result string error) :=
  let* _ := emit [Fetch url] in
  match http_NewRequest url with
  | Some err => ret (Err err)
  | None =>
      match Do up n url with
      | Err err => ret (Err err)
      | Ok resp =>
          if negb (StatusCode resp =? StatusOK) then
            ret (Err (ErrMsg ("API request failed with status: " +:+ Status resp)))
          else
            match BodyErr resp with
            | Some err => ret (Err err)
            | None => ret (Ok (Body resp))
            end
      end
  end.

(** The [for nextURL != ""] loop of the earlier [fetchAndUpdateMetrics]. *)
Fixpoint fetchLoop `{GoRuntime} (fuel : nat) (up : Upstream) (config : AWXConfig)
    (nextURL : string) (n : nat) : Action Outcome :=
  if String.eqb nextURL "" then ret (Returned None)
  else
    match fuel with
    | O => ret Looping
    | S fuel' =>
        let* resp := makeAWXRequest up config n nextURL in
        match resp with
        | Err err => ret (Returned (Some err))
        | Ok resp =>
            match json_Unmarshal resp with
            | Err err =>
                ret (Returned (Some (ErrMsg ("error parsing JSON: " +:+ Error err))))
            | Ok hostResponse =>
                let* _ :=
                  emit (Legacy.processHosts (HostResponse_Results hostResponse)) in
                fetchLoop fuel' up config
                  (buildURL config (HostResponse_Next hostResponse)) (S n)
            end
        end
    end.

Definition fetchAndUpdateMetrics `{GoRuntime} (fuel : nat) (up : Upstream)
    (config : AWXConfig) : Action Outcome :=
  let* _ :=
    emit [VecReset hostInfo; VecReset hostStatus; VecReset hostTimestamps;
          VecReset hostGroupMembership; VecReset groupInfo] in
  fetchLoop fuel up config (buildURL config "/api/v2/hosts/?format=json") 0.

End LegacyWalker.

(** An upstream whose pages all decode and whose last page has an empty
    [next]. *)
Definition upstreamTwoPages : Upstream :=
  {| Do n _ :=
       match n with
       | O => Ok (response200 "{first page}")
       | _ => Ok (response200 "{only page}")
       end;
     elapsed := 1800000000 |}.

(** Every field that parses, with its seconds, whatever the others do. *)
Fixpoint allParsed `{GoRuntime} (fields : list (string * string))
  : list (string * Z) :=
  match fields with
  | [] => []
  | (timestampStr, event) :: fields' =>
      match time_Parse_RFC3339 timestampStr with
      | Ok timestamp => (event, timestamp) :: allParsed fields'
      | Err _ => allParsed fields'
      end
  end.

(** ** The job-template exporter: the scrape *)

Module JobScrape.

(** The further library calls of [scrapeAWX]. *)
Class URLRuntime : Type := {
  (** [*url.URL] *)
  URL : Type;
  (** [url.Parse(s)] *)
  url_Parse : string -> result URL error;
  (** [base.ResolveReference(&url.URL{Path: path}).String()] *)
  url_Resolve : URL -> string -> string;
  (** [json.Unmarshal(body, &response)] on a zero [JobTemplateResponse] *)
  json_Unmarshal_templates :
    string -> result JobTemplates.JobTemplateResponse error
}.

(** The [for nextPagePath != ""] loop of [scrapeAWX]: every failure is
    logged and leaves the loop with [break].  The flag tells whether the
    loop was left ([false]: the fuel ran out first). *)
Fixpoint scrapeLoop `{GoRuntime} `{URLRuntime} (fuel : nat) (up : Upstream)
    (base : URL) (nextPagePath : string) (n : nat)
  : list JobTemplates.Op * bool :=
  if String.eqb nextPagePath "" then ([], true)
  else
    match fuel with
    | O => ([], false)
    | S fuel' =>
        let reqURL := url_Resolve base nextPagePath in
        match http_NewRequest reqURL with
        | Some _ => ([], true)
        | None =>
            match Do up n reqURL with
            | Err _ => ([], true)
            | Ok resp =>
                if negb (StatusCode resp =? StatusOK) then ([], true)
                else
                  match BodyErr resp with
                  | Some _ => ([], true)
                  | None =>
                      match json_Unmarshal_templates (Body resp) with
                      | Err _ => ([], true)
                      | Ok response =>
                          let '(ops, exited) :=
                            scrapeLoop fuel' up base
                              (JobTemplates.JobTemplateResponse_Next response)
                              (S n) in
                          (JobTemplates.scrapePage response ++ ops, exited)
                      end
                  end
            end
        end
    end.

Definition scrapeAWX `{GoRuntime} `{URLRuntime} (fuel : nat) (up : Upstream)
    (appConfig : JobTemplates.Config) : list JobTemplates.Op * bool :=
  let nextPagePath := "/api/v2/job_templates" in
  let resets :=
    [JobTemplates.VecReset JobTemplates.jobLastRunTimestamp;
     JobTemplates.VecReset JobTemplates.inventoryFailedHosts;
     JobTemplates.VecReset JobTemplates.inventoryTotalHosts] in
  match url_Parse (JobTemplates.Config_AWXURL appConfig) with
  | Err _ => (resets, true)
  | Ok base =>
      let '(ops, exited) := scrapeLoop fuel up base nextPagePath 0 in
      (resets ++ ops, exited)
  end.

End JobScrape.

(** The outcome of requesting, reading and decoding the [n]-th page of job
    templates at [path]: every failure makes the loop of [scrapeAWX] stop. *)
Definition readTemplatePage `{GoRuntime} `{JobScrape.URLRuntime} (up : Upstream)
    (base : JobScrape.URL) (n : nat) (path : string)
  : option JobTemplates.JobTemplateResponse :=
  let reqURL := JobScrape.url_Resolve base path in
  match http_NewRequest reqURL with
  | Some _ => None
  | None =>
      match Do up n reqURL with
      | Err _ => None
      | Ok resp =>
          if negb (StatusCode resp =? StatusOK) then None
          else
            match BodyErr resp with
            | Some _ => None
            | None =>
                match JobScrape.json_Unmarshal_templates (Body resp) with
                | Err _ => None
                | Ok response => Some response
                end
            end
      end
  end.

(** [TemplatePagesRead up base path n pages path' n']: starting with
    request [n] at [path], the upstream serves [pages] one after the other,
    each read and decoded without failure and each reached through the
    [next] of the one before; the scrape then stands at [path'], about to
    make request [n']. *)
Inductive TemplatePagesRead `{GoRuntime} `{JobScrape.URLRuntime} (up : Upstream)
    (base : JobScrape.URL)
  : string -> nat -> list JobTemplates.JobTemplateResponse -> string -> nat
    -> Prop :=
| TemplatePagesRead_nil (path : string) (n : nat) :
    TemplatePagesRead up base path n [] path n
| TemplatePagesRead_cons (path : string) (n : nat)
    (page : JobTemplates.JobTemplateResponse)
    (pages : list JobTemplates.JobTemplateResponse) (path' : string) (n' : nat) :
    path ≠ "" ->
    readTemplatePage up base n path = Some page ->
    TemplatePagesRead up base (JobTemplates.JobTemplateResponse_Next page) (S n)
      pages path' n' ->
    TemplatePagesRead up base path n (page :: pages) path' n'.

Definition otherTemplate : JobTemplates.JobTemplate :=
  {| JobTemplates.JobTemplate_ID := 12;
     JobTemplates.JobTemplate_Name := "backup";
     JobTemplates.JobTemplate_LastJobRun := sampleTime;
     JobTemplates.JobTemplate_SummaryFields :=
       {| JobTemplates.SummaryFields_Inventory :=
            {| JobTemplates.Inventory_HostsWithFailures := 0;
               JobTemplates.Inventory_TotalHosts := 7 |} |} |}.

Definition sampleTemplatePage : JobTemplates.JobTemplateResponse :=
  {| JobTemplates.JobTemplateResponse_Next := "";
     JobTemplates.JobTemplateResponse_Results :=
       [sampleTemplate "last week"; otherTemplate] |}.

(** A URL runtime whose URLs are strings with a scheme, resolved by
    appending the path, and which decodes one body. *)
Definition sampleURLRuntime : JobScrape.URLRuntime :=
  {| JobScrape.URL := string;
     JobScrape.url_Parse s :=
       if HasPrefix s "http" then Ok s else Err (ErrMsg "missing protocol scheme");
     JobScrape.url_Resolve base path := base +:+ path;
     JobScrape.json_Unmarshal_templates body :=
       if String.eqb body "{templates}" then Ok sampleTemplatePage
       else Err (ErrMsg "unexpected end of JSON input") |}.

Definition sampleJobConfig (url : string) : JobTemplates.Config :=
  {| JobTemplates.Config_AWXURL := url;
     JobTemplates.Config_AWXUsername := "exporter";
     JobTemplates.Config_AWXPassword := "secret";
     JobTemplates.Config_ScrapeInterval := 24 * 60 * Minute;
     JobTemplates.Config_ListenPort := ":8080";
     JobTemplates.Config_InsecureSkipVerify := false;
     JobTemplates.Config_RequestTimeout := 30 * Second |}.

(** * Properties *)

(** ** The library functions on samples *)

Example Itoa_samples : Itoa 0 = "0" /\ Itoa 42 = "42" /\ Itoa (-7) = "-7".
Proof. repeat split; reflexivity. Qed.

Example Atoi_samples :
  Atoi "15" = Some 15 /\ Atoi "-3" = Some (-3) /\ Atoi "+08" = Some 8 /\
  Atoi "" = None /\ Atoi "-" = None /\ Atoi "5m" = None /\
  Atoi "9223372036854775808" = None.
Proof. repeat split; reflexivity. Qed.

(** ** The registry under a sequence of operations *)

Lemma exec_app (ops1 ops2 : list Op) (r : Registry) :
  exec (ops1 ++ ops2) r = exec ops2 (exec ops1 r).
Proof. unfold exec. apply foldl_app. Qed.

Lemma exec_cons (o : Op) (ops : list Op) (r : Registry) :
  exec (o :: ops) r = exec ops (apply r o).
Proof. reflexivity. Qed.

Lemma errorsCounted_app (ops1 ops2 : list Op) :
  errorsCounted (ops1 ++ ops2) = errorsCounted ops1 + errorsCounted ops2.
Proof.
  induction ops1 as [|o ops1 IH]; simpl; [reflexivity|].
  destruct o; simpl; lia.
Qed.

Lemma hostsAdded_app (ops1 ops2 : list Op) :
  hostsAdded (ops1 ++ ops2) = hostsAdded ops1 + hostsAdded ops2.
Proof.
  induction ops1 as [|o ops1 IH]; simpl; [reflexivity|].
  destruct o; simpl; lia.
Qed.

Lemma observed_app (ops1 ops2 : list Op) :
  observed (ops1 ++ ops2) = observed ops1 ++ observed ops2.
Proof. unfold observed. apply flat_map_app. Qed.

Lemma fetches_app (ops1 ops2 : list Op) :
  fetches (ops1 ++ ops2) = fetches ops1 ++ fetches ops2.
Proof. unfold fetches. apply flat_map_app. Qed.

Lemma setsOf_app (f : Family) (ops1 ops2 : list Op) :
  setsOf f (ops1 ++ ops2) = setsOf f ops1 ++ setsOf f ops2.
Proof. unfold setsOf. apply flat_map_app. Qed.

Lemma errorsCounted_nonneg (ops : list Op) : 0 <= errorsCounted ops.
Proof. induction ops as [|o ops IH]; simpl; [lia|]. destruct o; lia. Qed.

Lemma scrapeErrors_exec (ops : list Op) (r : Registry) :
  scrapeErrors (exec ops r) = scrapeErrors r + errorsCounted ops.
Proof.
  revert r. induction ops as [|o ops IH]; intros r.
  - simpl. lia.
  - rewrite exec_cons, IH. destruct o; simpl; lia.
Qed.

Lemma hostsProcessed_exec (ops : list Op) (r : Registry) :
  hostsProcessed (exec ops r) = hostsProcessed r + hostsAdded ops.
Proof.
  revert r. induction ops as [|o ops IH]; intros r.
  - simpl. lia.
  - rewrite exec_cons, IH. destruct o; simpl; lia.
Qed.

Lemma scrapeDuration_exec (ops : list Op) (r : Registry) :
  scrapeDuration (exec ops r) = scrapeDuration r ++ observed ops.
Proof.
  revert r. induction ops as [|o ops IH]; intros r.
  - simpl. by rewrite app_nil_r.
  - rewrite exec_cons, IH. destruct o; simpl; try reflexivity.
    by rewrite <- app_assoc.
Qed.

(** The gauges after a sequence of operations depend on the registry
    before only through its gauges. *)
Lemma gauges_exec_ext (ops : list Op) (r1 r2 : Registry) :
  gauges r1 = gauges r2 -> gauges (exec ops r1) = gauges (exec ops r2).
Proof.
  revert r1 r2. induction ops as [|o ops IH]; intros r1 r2 Hg; [exact Hg|].
  rewrite !exec_cons. apply IH. destruct o; simpl; by rewrite ?Hg.
Qed.

Lemma gauges_apply_lookup (o : Op) (r : Registry) (f : Family) (lvs : list string) :
  isReset o = false ->
  gauges (apply r o) !! (f, lvs) =
    match lastSet f lvs [o] with
    | Some v => Some v
    | None => gauges r !! (f, lvs)
    end.
Proof.
  intros Hr. destruct o as [f' lvs' v| | | | |]; simpl in *; try done.
  destruct (decide ((f', lvs') = (f, lvs))) as [->|Hne].
  - by rewrite lookup_insert_eq.
  - by rewrite lookup_insert_ne.
Qed.

(** Without a reset every series holds the last value written to it, or
    what it held before. *)
Lemma gauges_exec_lookup (ops : list Op) (r : Registry) (f : Family)
    (lvs : list string) :
  forallb (fun o => negb (isReset o)) ops = true ->
  gauges (exec ops r) !! (f, lvs) =
    match lastSet f lvs ops with
    | Some v => Some v
    | None => gauges r !! (f, lvs)
    end.
Proof.
  revert r. induction ops as [|o ops IH]; intros r Hn; [reflexivity|].
  simpl in Hn. apply andb_true_iff in Hn as [Ho Hn].
  apply negb_true_iff in Ho.
  rewrite exec_cons, (IH _ Hn). simpl.
  destruct (lastSet f lvs ops); [reflexivity|].
  rewrite (gauges_apply_lookup _ _ _ _ Ho). reflexivity.
Qed.

Lemma gauges_ResetAllMetrics (r : Registry) :
  gauges (exec ResetAllMetrics r) = ∅.
Proof.
  apply map_eq. intros [f lvs]. rewrite lookup_empty.
  unfold ResetAllMetrics, exec. simpl.
  apply eq_None_not_Some. intros [v Hv].
  repeat (apply map_lookup_filter_Some in Hv as [Hv ?]).
  simpl in *. destruct f; congruence.
Qed.

Lemma forallb_flat_map {A B : Type} (p : B -> bool) (f : A -> list B) (l : list A) :
  (forall x, forallb p (f x) = true) -> forallb p (flat_map f l) = true.
Proof.
  intros Hf. induction l as [|x l IH]; simpl; [reflexivity|].
  rewrite forallb_app, Hf, IH. reflexivity.
Qed.

(** Operations that only set gauges leave the counters, the histogram and
    the list of fetches alone, and contain no reset. *)
Lemma only_sets (ops : list Op) :
  forallb isGaugeSet ops = true ->
  hostsAdded ops = 0 /\ errorsCounted ops = 0 /\ observed ops = [] /\
  fetches ops = [] /\ forallb (fun o => negb (isReset o)) ops = true.
Proof.
  induction ops as [|o ops IH]; simpl; [done|].
  intros Ho. apply andb_true_iff in Ho as [Ho Hops].
  destruct o; simpl in *; try done. by apply IH.
Qed.

(** ** The action combinators *)

Lemma orReturn_fst (m k : Action (option error)) :
  fst (orReturn m k) =
    fst m ++ match snd m with Some _ => [] | None => fst k end.
Proof. destruct m as [ops [e|]], k as [ops' res]; reflexivity. Qed.

Lemma orReturn_snd (m k : Action (option error)) :
  snd (orReturn m k) =
    match snd m with Some e => Some e | None => snd k end.
Proof. destruct m as [ops [e|]], k as [ops' res]; reflexivity. Qed.

Section Processor.
Context `{GoRuntime}.

Lemma setTimestampMetric_eq (timestampStr id name event : string) :
  setTimestampMetric timestampStr id name event =
    match time_Parse_RFC3339 timestampStr with
    | Ok timestamp =>
        ([GaugeSet hostTimestamps [id; name; event] timestamp], None)
    | Err err => ([], Some err)
    end.
Proof.
  unfold setTimestampMetric. by destruct (time_Parse_RFC3339 timestampStr).
Qed.

Lemma processHostStatus_eq (host : Host) (idStr : string) :
  processHostStatus host idStr =
    (if Nat.eqb (length (hostGroups host)) 0 then
       [GaugeSet hostStatus [idStr; Host_Name host; "active_failures"; "none"]
          (boolToFloat (Host_HasActiveFailures host));
        GaugeSet hostStatus [idStr; Host_Name host; "inventory_sources"; "none"]
          (boolToFloat (Host_HasInventorySources host))]
     else
       flat_map (fun group =>
         [GaugeSet hostStatus
            [idStr; Host_Name host; "active_failures"; Group_Name group]
            (boolToFloat (Host_HasActiveFailures host));
          GaugeSet hostStatus
            [idStr; Host_Name host; "inventory_sources"; Group_Name group]
            (boolToFloat (Host_HasInventorySources host))])
         (hostGroups host),
     None).
Proof.
  unfold processHostStatus.
  destruct (Nat.eqb (length (hostGroups host)) 0); simpl;
    by rewrite ?app_nil_r.
Qed.

Lemma processHostGroups_eq (host : Host) (idStr invIDStr : string) :
  processHostGroups host idStr invIDStr =
    (flat_map (fun group =>
       [GaugeSet hostGroupMembership
          [idStr; Host_Name host; Itoa (Group_ID group); Group_Name group] 1;
        GaugeSet groupInfo [Itoa (Group_ID group); Group_Name group; invIDStr] 1])
       (hostGroups host),
     None).
Proof. unfold processHostGroups. simpl. by rewrite app_nil_r. Qed.

Lemma processHostTimestamps_sets (host : Host) (idStr : string) :
  forallb isGaugeSet (fst (processHostTimestamps host idStr)) = true.
Proof.
  unfold processHostTimestamps.
  rewrite !orReturn_fst, !setTimestampMetric_eq.
  destruct (time_Parse_RFC3339 (Host_Created host)); [|reflexivity].
  destruct (time_Parse_RFC3339 (Host_Modified host)); [|reflexivity].
  destruct (Host_AnsibleFactsModified host) as [facts|]; [|reflexivity].
  rewrite orReturn_fst, setTimestampMetric_eq.
  by destruct (time_Parse_RFC3339 facts).
Qed.

(** [processHost] as a whole: the info gauge, the status gauges, the
    timestamps, and the group gauges when the timestamps raised no error. *)
Lemma processHost_fst (host : Host) :
  let idStr := Itoa (Host_ID host) in
  let invIDStr :=
    Itoa (Inventory_ID (SummaryFields_Inventory (Host_SummaryFields host))) in
  fst (processHost host) =
    GaugeSet hostInfo
      [idStr; Host_Name host; invIDStr;
       Inventory_Name (SummaryFields_Inventory (Host_SummaryFields host));
       boolToString (Host_Enabled host); Host_InstanceID host] 1
    :: fst (processHostStatus host idStr)
    ++ fst (processHostTimestamps host idStr)
    ++ match snd (processHostTimestamps host idStr) with
       | Some _ => []
       | None => fst (processHostGroups host idStr invIDStr)
       end.
Proof.
  intros idStr invIDStr. unfold processHost. fold idStr invIDStr.
  unfold bind at 1. unfold emit.
  match goal with
  | |- context [orReturn ?m ?k] => destruct (orReturn m k) as [ops res] eqn:E
  end.
  cbn [fst app]. f_equal.
  apply (f_equal fst) in E. cbn [fst] in E. subst ops.
  rewrite !orReturn_fst.
  replace (snd (processHostStatus host idStr)) with (@None error)
    by (by rewrite processHostStatus_eq).
  destruct (snd (processHostTimestamps host idStr)); [reflexivity|].
  replace (snd (processHostGroups host idStr invIDStr)) with (@None error)
    by (by rewrite processHostGroups_eq).
  cbn [fst ret]. by rewrite !app_nil_r.
Qed.

Lemma processHost_snd (host : Host) :
  snd (processHost host) =
    snd (processHostTimestamps host (Itoa (Host_ID host))).
Proof.
  unfold processHost. unfold bind at 1. unfold emit.
  match goal with
  | |- context [orReturn ?m ?k] => destruct (orReturn m k) as [ops res] eqn:E
  end.
  cbn [snd]. apply (f_equal snd) in E. cbn [snd] in E. subst res.
  rewrite !orReturn_snd, processHostStatus_eq, processHostGroups_eq.
  cbn [snd ret].
  by destruct (snd (processHostTimestamps host (Itoa (Host_ID host)))).
Qed.

Lemma processHostStatus_sets (host : Host) (idStr : string) :
  forallb isGaugeSet (fst (processHostStatus host idStr)) = true.
Proof.
  rewrite processHostStatus_eq. cbn [fst].
  destruct (Nat.eqb (length (hostGroups host)) 0); [reflexivity|].
  by apply forallb_flat_map.
Qed.

Lemma processHostGroups_sets (host : Host) (idStr invIDStr : string) :
  forallb isGaugeSet (fst (processHostGroups host idStr invIDStr)) = true.
Proof.
  rewrite processHostGroups_eq. cbn [fst]. by apply forallb_flat_map.
Qed.

Lemma processHost_sets (host : Host) :
  forallb isGaugeSet (fst (processHost host)) = true.
Proof.
  rewrite processHost_fst. cbv zeta. cbn [forallb isGaugeSet andb].
  rewrite !forallb_app, processHostTimestamps_sets, processHostStatus_sets.
  destruct (snd (processHostTimestamps host (Itoa (Host_ID host))));
    [reflexivity|].
  by rewrite processHostGroups_sets.
Qed.

Lemma processHosts_eq (hosts : list Host) :
  processHosts hosts =
    match hosts with
    | [] => []
    | _ => flat_map (fun host => fst (processHost host)) hosts
             ++ [HostsAdd (Z.of_nat (length hosts))]
    end.
Proof. by destruct hosts. Qed.

Lemma processHosts_hostsAdded (hosts : list Host) :
  hostsAdded (processHosts hosts) = Z.of_nat (length hosts).
Proof.
  rewrite processHosts_eq. destruct hosts as [|host hosts]; [reflexivity|].
  rewrite hostsAdded_app.
  assert (forallb isGaugeSet
            (flat_map (fun host => fst (processHost host)) (host :: hosts)) = true)
    as Hs by (apply forallb_flat_map, processHost_sets).
  apply only_sets in Hs as (-> & _). simpl. lia.
Qed.

Lemma processHosts_noreset (hosts : list Host) :
  forallb (fun o => negb (isReset o)) (processHosts hosts) = true.
Proof.
  rewrite processHosts_eq. destruct hosts as [|host hosts]; [reflexivity|].
  rewrite forallb_app.
  assert (forallb isGaugeSet
            (flat_map (fun host => fst (processHost host)) (host :: hosts)) = true)
    as Hs by (apply forallb_flat_map, processHost_sets).
  apply only_sets in Hs as (_ & _ & _ & _ & ->). reflexivity.
Qed.

Lemma processHosts_quiet (hosts : list Host) :
  errorsCounted (processHosts hosts) = 0 /\ observed (processHosts hosts) = [] /\
  fetches (processHosts hosts) = [].
Proof.
  rewrite processHosts_eq. destruct hosts as [|host hosts]; [done|].
  rewrite errorsCounted_app, observed_app, fetches_app.
  assert (forallb isGaugeSet
            (flat_map (fun host => fst (processHost host)) (host :: hosts)) = true)
    as Hs by (apply forallb_flat_map, processHost_sets).
  apply only_sets in Hs as (_ & -> & -> & -> & _). done.
Qed.

End Processor.

(** ** The client and the pagination loop *)

Section Scrape.
Context `{GoRuntime}.

Lemma makeAWXRequest_fst (up : Upstream) (config : AWXConfig) (n : nat)
    (url : string) :
  fst (makeAWXRequest up config n url) = [Fetch url].
Proof.
  unfold makeAWXRequest.
  destruct (http_NewRequest url); [reflexivity|].
  destruct (Do up n url) as [resp|]; [|reflexivity].
  destruct (negb (StatusCode resp =? StatusOK)); [reflexivity|].
  destruct (BodyErr resp); [reflexivity|].
  by destruct (Nat.ltb 0 (String.length (Body resp)) && Contains (Body resp) "<html").
Qed.

Lemma makeAWXRequest_snd (up : Upstream) (config : AWXConfig) (n : nat)
    (url : string) :
  snd (makeAWXRequest up config n url) =
    match http_NewRequest url with
    | Some err => Err (ErrCreateRequest url err)
    | None =>
        match Do up n url with
        | Err err => Err (ErrRequestFailed url err)
        | Ok resp =>
            if negb (StatusCode resp =? StatusOK) then
              Err (ErrAPIStatus (StatusCode resp) (Status resp) (Body resp))
            else
              match BodyErr resp with
              | Some err => Err (ErrReadBody url err)
              | None =>
                  if Nat.ltb 0 (String.length (Body resp))
                     && Contains (Body resp) "<html"
                  then Err (ErrHTMLResponse url)
                  else Ok (Body resp)
              end
        end
    end.
Proof.
  unfold makeAWXRequest.
  destruct (http_NewRequest url); [reflexivity|].
  destruct (Do up n url) as [resp|]; [|reflexivity].
  destruct (negb (StatusCode resp =? StatusOK)); [reflexivity|].
  destruct (BodyErr resp); [reflexivity|].
  by destruct (Nat.ltb 0 (String.length (Body resp)) && Contains (Body resp) "<html").
Qed.

Lemma fetchLoop_done (fuel : nat) (up : Upstream) (config : AWXConfig) (n : nat) :
  fetchLoop fuel up config "" n = ([], Returned None).
Proof. by destruct fuel. Qed.

Lemma fetchLoop_out_of_fuel (up : Upstream) (config : AWXConfig) (url : string)
    (n : nat) :
  url ≠ "" -> fetchLoop 0 up config url n = ([], Looping).
Proof.
  intros Hne. simpl. apply String.eqb_neq in Hne. by rewrite Hne.
Qed.

(** One iteration of the loop at a non-empty URL. *)
Lemma fetchLoop_step (fuel : nat) (up : Upstream) (config : AWXConfig)
    (url : string) (n : nat) :
  url ≠ "" ->
  fetchLoop (S fuel) up config url n =
    match readPage up config n url with
    | Err err => ([Fetch url; ErrorsInc], Returned (Some err))
    | Ok page =>
        let rest :=
          fetchLoop fuel up config
            (buildURL config (HostResponse_Next page)) (S n) in
        (Fetch url :: processHosts (HostResponse_Results page) ++ fst rest,
         snd rest)
    end.
Proof.
  intros Hne. apply String.eqb_neq in Hne.
  unfold readPage. cbn [fetchLoop]. rewrite Hne.
  pose proof (makeAWXRequest_fst up config n url) as Hops.
  destruct (makeAWXRequest up config n url) as [ops [body|err]];
    cbn [fst snd] in *; subst ops; [|reflexivity].
  cbn [bind].
  destruct (json_Unmarshal body) as [page|err]; [|reflexivity].
  cbn [bind emit app].
  destruct (fetchLoop fuel up config (buildURL config (HostResponse_Next page))
              (S n)) as [ops out].
  reflexivity.
Qed.

Lemma fetchAndUpdateMetrics_eq (fuel : nat) (up : Upstream) (config : AWXConfig) :
  fetchAndUpdateMetrics fuel up config =
    let loop := fetchLoop fuel up config (startURL config) 0 in
    (ResetAllMetrics ++ fst loop
       ++ match snd loop with
          | Returned _ => [DurationObserve (elapsed up)]
          | Looping => []
          end,
     snd loop).
Proof.
  unfold fetchAndUpdateMetrics, startURL. cbv zeta.
  destruct (fetchLoop fuel up config
              (buildURL config "/api/v2/hosts/?format=json") 0) as [ops [err|]];
    reflexivity.
Qed.

Lemma collect_eq (fuel : nat) (up : Upstream) (config : AWXConfig) :
  collect fuel up config =
    let scrape := fetchAndUpdateMetrics fuel up config in
    (fst scrape
       ++ match snd scrape with
          | Returned (Some _) => RecordScrapeError
          | _ => []
          end,
     snd scrape).
Proof.
  unfold collect. cbv zeta.
  destruct (fetchAndUpdateMetrics fuel up config) as [ops [[err|]|]];
    cbn [bind fst snd emit ret]; by rewrite ?app_nil_r.
Qed.

(** A fetch changes nothing in the registry. *)
Lemma exec_Fetch (url : string) (ops : list Op) (r : Registry) :
  exec (Fetch url :: ops) r = exec ops r.
Proof. reflexivity. Qed.

(** Reading [pages] without error: the loop has written what the
    transformer writes for these pages and stands at the next URL. *)
Lemma fetchLoop_reads (up : Upstream) (config : AWXConfig) (url : string)
    (n : nat) (pages : list HostResponse) (url' : string) (n' : nat) :
  PagesRead up config url n pages url' n' ->
  forall (fuel : nat) (r : Registry),
    let loop := fetchLoop (length pages + fuel) up config url n in
    let rest := fetchLoop fuel up config url' n' in
    exec (fst loop) r = exec (fst rest) (exec (transform pages) r) /\
    snd loop = snd rest /\
    length (fetches (fst loop)) = (length pages + length (fetches (fst rest)))%nat.
Proof.
  induction 1 as [url n|url n page pages url' n' Hne Hread _ IH];
    intros fuel r; cbv zeta.
  - done.
  - cbn [length Nat.add]. rewrite (fetchLoop_step _ _ _ _ _ Hne), Hread.
    cbv zeta. cbn [fst snd].
    destruct (IH fuel (exec (processHosts (HostResponse_Results page)) r))
      as (He & Hs & Hf).
    split; [|split].
    + rewrite exec_Fetch, exec_app, He. unfold transform. cbn [flat_map].
      by rewrite exec_app.
    + exact Hs.
    + cbn [fetches flat_map app length]. fold (fetches).
      change (flat_map (fun o => match o with Fetch u => [u] | _ => [] end))
        with fetches.
      rewrite fetches_app, length_app.
      destruct (processHosts_quiet (HostResponse_Results page)) as (_ & _ & ->).
      cbn [length Nat.add]. by rewrite Hf.
Qed.

(** The loop never decreases what it hands to the counters. *)
Lemma fetchLoop_hostsAdded_nonneg (fuel : nat) (up : Upstream)
    (config : AWXConfig) (url : string) (n : nat) :
  0 <= hostsAdded (fst (fetchLoop fuel up config url n)).
Proof.
  revert url n. induction fuel as [|fuel IH]; intros url n.
  - destruct (decide (url = "")) as [->|Hne].
    + by rewrite fetchLoop_done.
    + by rewrite fetchLoop_out_of_fuel.
  - destruct (decide (url = "")) as [->|Hne].
    + by rewrite fetchLoop_done.
    + rewrite (fetchLoop_step _ _ _ _ _ Hne).
      destruct (readPage up config n url) as [page|err]; [|done].
      cbv zeta. cbn [fst hostsAdded foldr].
      change (foldr _ 0 ?ops) with (hostsAdded ops).
      rewrite hostsAdded_app, processHosts_hostsAdded.
      specialize (IH (buildURL config (HostResponse_Next page)) (S n)). lia.
Qed.

End Scrape.

(** ** The counters and the histogram over collections *)

Section Collections.
Context `{GoRuntime}.

Lemma transform_noreset (pages : list HostResponse) :
  forallb (fun o => negb (isReset o)) (transform pages) = true.
Proof.
  unfold transform. apply forallb_flat_map. intros page.
  apply processHosts_noreset.
Qed.

Lemma transform_hostsAdded (pages : list HostResponse) :
  hostsAdded (transform pages) =
    Z.of_nat (length (flat_map HostResponse_Results pages)).
Proof.
  unfold transform. induction pages as [|page pages IH]; [reflexivity|].
  cbn [flat_map]. rewrite hostsAdded_app, processHosts_hostsAdded, IH.
  rewrite length_app. lia.
Qed.

Lemma transform_quiet (pages : list HostResponse) :
  errorsCounted (transform pages) = 0 /\ observed (transform pages) = [].
Proof.
  unfold transform. induction pages as [|page pages [IHe IHo]]; [done|].
  cbn [flat_map]. rewrite errorsCounted_app, observed_app, IHe, IHo.
  by destruct (processHosts_quiet (HostResponse_Results page)) as (-> & -> & _).
Qed.

Lemma collect_hostsAdded_nonneg (fuel : nat) (up : Upstream) (config : AWXConfig) :
  0 <= hostsAdded (fst (collect fuel up config)).
Proof.
  rewrite collect_eq, fetchAndUpdateMetrics_eq. cbv zeta. cbn [fst snd].
  rewrite !hostsAdded_app.
  pose proof (fetchLoop_hostsAdded_nonneg fuel up config (startURL config) 0)
    as Hloop.
  set (added := hostsAdded (fst (fetchLoop fuel up config (startURL config) 0)))
    in *.
  destruct (snd (fetchLoop fuel up config (startURL config) 0)) as [[err|]|];
    cbn; lia.
Qed.

Lemma collections_hostsAdded_nonneg (fuel : nat) (ups : list Upstream)
    (config : AWXConfig) :
  0 <= hostsAdded (collections fuel ups config).
Proof.
  induction ups as [|up ups IH]; [done|].
  cbn [collections].
  pose proof (collect_hostsAdded_nonneg fuel up config) as Hc.
  destruct (collect fuel up config) as [ops [err|]]; cbn [fst] in Hc.
  - rewrite hostsAdded_app. lia.
  - exact Hc.
Qed.

End Collections.

(** ** Counters, reset and repeated runs *)

(** C10: [processHosts] adds the full length of the page's host list to
    [hosts_processed_total], whatever the outcome of processing the single
    hosts (the statement holds for every runtime, so also when timestamps
    fail to parse and [processHost] returns an error); for an empty page it
    performs no operation at all. *)
Theorem C10_hosts_processed_counts_attempted `{GoRuntime} (hosts : list Host)
    (r : Registry) :
  hostsProcessed (exec (processHosts hosts) r)
    = hostsProcessed r + Z.of_nat (length hosts)
  /\ processHosts [] = [].
Proof.
  split; [|reflexivity].
  by rewrite hostsProcessed_exec, processHosts_hostsAdded.
Qed.

(** A page whose second host fails still counts two hosts. *)
Example processHosts_counts_failing_host :
  snd (@processHost sampleRuntime hostGamma)
    = Some (ErrMsg "cannot parse as RFC3339")
  /\ hostsProcessed
       (exec (@processHosts sampleRuntime [hostAlpha; hostGamma]) emptyRegistry)
     = 2.
Proof. split; reflexivity. Qed.

(** C8: [ResetAllMetrics] empties the five gauge families (they are all
    the gauges of the registry) and leaves [scrape_errors_total],
    [hosts_processed_total] and [scrape_duration_seconds] as they were;
    over any run of the collection loop the two counters never decrease and
    the histogram only gains observations. *)
Theorem C8_reset_spares_self_monitoring `{GoRuntime} (r : Registry) (fuel : nat)
    (initial : Upstream) (ticks : list Upstream) (config : AWXConfig)
    (interval : Z) :
  (gauges (exec ResetAllMetrics r) = ∅
   /\ scrapeErrors (exec ResetAllMetrics r) = scrapeErrors r
   /\ hostsProcessed (exec ResetAllMetrics r) = hostsProcessed r
   /\ scrapeDuration (exec ResetAllMetrics r) = scrapeDuration r)
  /\ (let r' := exec (updateMetrics fuel initial ticks config interval) r in
      scrapeErrors r <= scrapeErrors r'
      /\ hostsProcessed r <= hostsProcessed r'
      /\ scrapeDuration r `prefix_of` scrapeDuration r').
Proof.
  split.
  - split; [apply gauges_ResetAllMetrics|]. by repeat split.
  - cbv zeta. unfold updateMetrics.
    destruct (NewTicker_panics interval).
    + cbn [exec foldl]. repeat split; try lia. exists []. by rewrite app_nil_r.
    + rewrite scrapeErrors_exec, hostsProcessed_exec, scrapeDuration_exec.
      pose proof (errorsCounted_nonneg
                    (collections fuel (initial :: ticks) config)).
      pose proof (collections_hostsAdded_nonneg fuel (initial :: ticks) config).
      repeat split; try lia. by eexists.
Qed.

(** C9 as stated fails: processing the same page a second time changes the
    registry, because [hosts_processed_total] grows again. *)
Lemma C9_counterexample :
  exec (@processHosts sampleRuntime [hostBeta])
    (exec (@processHosts sampleRuntime [hostBeta]) emptyRegistry)
  <> exec (@processHosts sampleRuntime [hostBeta]) emptyRegistry.
Proof.
  intros Heq. apply (f_equal hostsProcessed) in Heq.
  vm_compute in Heq. discriminate.
Qed.

(** C9, amended: running the transformer a second time over the same pages
    leaves every gauge series, the error counter and the histogram as
    after the first run, and adds the number of hosts once more to
    [hosts_processed_total]. *)
Theorem C9_transform_twice `{GoRuntime} (pages : list HostResponse)
    (r : Registry) :
  let once := exec (transform pages) r in
  let twice := exec (transform pages) once in
  gauges twice = gauges once
  /\ hostsProcessed twice
     = hostsProcessed once
       + Z.of_nat (length (flat_map HostResponse_Results pages))
  /\ scrapeErrors twice = scrapeErrors once
  /\ scrapeDuration twice = scrapeDuration once.
Proof.
  cbv zeta. split; [|split; [|split]].
  - apply map_eq. intros [f lvs].
    rewrite !gauges_exec_lookup by apply transform_noreset.
    by destruct (lastSet f lvs (transform pages)).
  - by rewrite hostsProcessed_exec, transform_hostsAdded.
  - rewrite scrapeErrors_exec. destruct (transform_quiet pages) as [-> _]. lia.
  - rewrite scrapeDuration_exec. destruct (transform_quiet pages) as [_ ->].
    by rewrite app_nil_r.
Qed.

(** ** Observations per host *)

Lemma setsOf_flat_map_groups (f : Family) (g : Group -> list Op)
    (k : Group -> list (list string * Z)) (groups : list Group) :
  (forall group, setsOf f (g group) = k group) ->
  setsOf f (flat_map g groups) = flat_map k groups.
Proof.
  intros Hg. induction groups as [|group groups IH]; [reflexivity|].
  cbn [flat_map]. by rewrite setsOf_app, Hg, IH.
Qed.

Lemma length_flat_map_const {A B : Type} (g : A -> list B) (c : nat)
    (l : list A) :
  (forall x, length (g x) = c) -> length (flat_map g l) = (c * length l)%nat.
Proof.
  intros Hg. induction l as [|x l IH]; cbn [flat_map length]; [lia|].
  rewrite length_app, Hg, IH. lia.
Qed.

(** The two functions on their own, for any label strings handed to them:
    [processHostStatus] writes host-status observations
    only: two with the group label ["none"] when the host has no groups, and
    otherwise, for each of its N groups in order, [active_failures] and
    [inventory_sources] under the group's name with the host's two values,
    2N in all; [processHostGroups] writes, for each group in order, one
    membership observation keyed by (host id, host name, group id, group
    name) and one group-info observation keyed by (group id, group name,
    inventory id), both with value 1, 2N operations in all.  Neither returns
    an error. *)
Lemma processHostStatus_processHostGroups_observations (host : Host)
    (idStr invIDStr : string) :
  let groups := hostGroups host in
  let activeFailures := boolToFloat (Host_HasActiveFailures host) in
  let inventorySources := boolToFloat (Host_HasInventorySources host) in
  let statusOps := fst (processHostStatus host idStr) in
  let groupOps := fst (processHostGroups host idStr invIDStr) in
  (setsOf hostStatus statusOps =
     match groups with
     | [] =>
         [([idStr; Host_Name host; "active_failures"; "none"], activeFailures);
          ([idStr; Host_Name host; "inventory_sources"; "none"], inventorySources)]
     | _ =>
         flat_map (fun group =>
           [([idStr; Host_Name host; "active_failures"; Group_Name group],
             activeFailures);
            ([idStr; Host_Name host; "inventory_sources"; Group_Name group],
             inventorySources)]) groups
     end
   /\ length (setsOf hostStatus statusOps)
      = (if Nat.eqb (length groups) 0 then 2 else 2 * length groups)%nat
   /\ length statusOps = length (setsOf hostStatus statusOps)
   /\ snd (processHostStatus host idStr) = None)
  /\ (setsOf hostGroupMembership groupOps =
        map (fun group =>
          ([idStr; Host_Name host; Itoa (Group_ID group); Group_Name group], 1))
          groups
      /\ setsOf groupInfo groupOps =
           map (fun group =>
             ([Itoa (Group_ID group); Group_Name group; invIDStr], 1)) groups
      /\ length groupOps = (2 * length groups)%nat
      /\ snd (processHostGroups host idStr invIDStr) = None).
Proof.
  cbv zeta. rewrite processHostStatus_eq, processHostGroups_eq. cbn [fst snd].
  split.
  - destruct (hostGroups host) as [|group groups] eqn:Hgroups.
    + by repeat split.
    + cbn [length Nat.eqb].
      set (status := fun group : Group =>
        [GaugeSet hostStatus
           [idStr; Host_Name host; "active_failures"; Group_Name group]
           (boolToFloat (Host_HasActiveFailures host));
         GaugeSet hostStatus
           [idStr; Host_Name host; "inventory_sources"; Group_Name group]
           (boolToFloat (Host_HasInventorySources host))]).
      set (written := fun group : Group =>
        [([idStr; Host_Name host; "active_failures"; Group_Name group],
          boolToFloat (Host_HasActiveFailures host));
         ([idStr; Host_Name host; "inventory_sources"; Group_Name group],
          boolToFloat (Host_HasInventorySources host))]).
      assert (setsOf hostStatus (flat_map status (group :: groups))
              = flat_map written (group :: groups)) as Hsets
        by (by apply setsOf_flat_map_groups).
      rewrite Hsets.
      rewrite (length_flat_map_const written 2) by done.
      rewrite (length_flat_map_const status 2) by done.
      by repeat split.
  - set (member := fun group : Group =>
      [GaugeSet hostGroupMembership
         [idStr; Host_Name host; Itoa (Group_ID group); Group_Name group] 1;
       GaugeSet groupInfo [Itoa (Group_ID group); Group_Name group; invIDStr] 1]).
    repeat split.
    + rewrite (setsOf_flat_map_groups _ member
                 (fun group =>
                    [([idStr; Host_Name host; Itoa (Group_ID group);
                       Group_Name group], 1)])) by done.
      induction (hostGroups host) as [|group groups IH]; [done|].
      cbn [flat_map map app]. by rewrite IH.
    + rewrite (setsOf_flat_map_groups _ member
                 (fun group =>
                    [([Itoa (Group_ID group); Group_Name group; invIDStr], 1)]))
        by done.
      induction (hostGroups host) as [|group groups IH]; [done|].
      cbn [flat_map map app]. by rewrite IH.
    + by rewrite (length_flat_map_const member 2).
Qed.

Section ProcessHost.
Context `{GoRuntime}.

Lemma setsOf_processHostStatus (f : Family) (host : Host) (idStr : string) :
  f ≠ hostStatus -> setsOf f (fst (processHostStatus host idStr)) = [].
Proof.
  intros Hf. rewrite processHostStatus_eq. cbn [fst].
  destruct (Nat.eqb (length (hostGroups host)) 0).
  - by destruct f.
  - rewrite (setsOf_flat_map_groups _ _ (fun _ => [])).
    + by induction (hostGroups host).
    + by destruct f.
Qed.

Lemma setsOf_setTimestampMetric (f : Family) (timestampStr id name event : string) :
  f ≠ hostTimestamps ->
  setsOf f (fst (setTimestampMetric timestampStr id name event)) = [].
Proof.
  intros Hf. rewrite setTimestampMetric_eq.
  destruct (time_Parse_RFC3339 timestampStr); [|reflexivity].
  by destruct f.
Qed.

Lemma setsOf_processHostTimestamps (f : Family) (host : Host) (idStr : string) :
  f ≠ hostTimestamps -> setsOf f (fst (processHostTimestamps host idStr)) = [].
Proof.
  intros Hf. unfold processHostTimestamps.
  rewrite !orReturn_fst, !setsOf_app, !setsOf_setTimestampMetric by done.
  destruct (snd (setTimestampMetric (Host_Created host) idStr (Host_Name host)
                   "created")); [reflexivity|].
  rewrite setsOf_app, setsOf_setTimestampMetric by done.
  destruct (snd (setTimestampMetric (Host_Modified host) idStr (Host_Name host)
                   "modified")); [reflexivity|].
  destruct (Host_AnsibleFactsModified host) as [facts|]; [|reflexivity].
  rewrite orReturn_fst, setsOf_app, setsOf_setTimestampMetric by done.
  by destruct (snd (setTimestampMetric facts idStr (Host_Name host)
                      "ansible_facts_modified")).
Qed.

Lemma processHostTimestamps_modified_error (host : Host) (idStr : string)
    (err : error) :
  time_Parse_RFC3339 (Host_Modified host) = Err err ->
  exists err', snd (processHostTimestamps host idStr) = Some err'.
Proof.
  intros Hm. unfold processHostTimestamps.
  rewrite !orReturn_snd, !setTimestampMetric_eq, Hm.
  destruct (time_Parse_RFC3339 (Host_Created host)); cbn [snd]; eauto.
Qed.

(** [processHost] on a host whose [modified] does not parse: no group
    membership and no group info is written. *)
Lemma processHost_modified_error (host : Host) (err : error) :
  time_Parse_RFC3339 (Host_Modified host) = Err err ->
  setsOf hostGroupMembership (fst (processHost host)) = []
  /\ setsOf groupInfo (fst (processHost host)) = []
  /\ exists err', snd (processHost host) = Some err'.
Proof.
  intros Hm.
  destruct (processHostTimestamps_modified_error host (Itoa (Host_ID host))
              err Hm) as [err' Herr].
  rewrite processHost_snd, processHost_fst. cbv zeta. rewrite Herr.
  rewrite app_nil_r.
  split; [|split; [|by eexists]].
  - change (GaugeSet hostInfo ?l ?v :: ?ops) with ([GaugeSet hostInfo l v] ++ ops).
    by rewrite !setsOf_app, setsOf_processHostStatus,
      setsOf_processHostTimestamps.
  - change (GaugeSet hostInfo ?l ?v :: ?ops) with ([GaugeSet hostInfo l v] ++ ops).
    by rewrite !setsOf_app, setsOf_processHostStatus,
      setsOf_processHostTimestamps.
Qed.

(** When its timestamps parse, [processHost] writes the group metrics of
    [processHostGroups]. *)
Lemma processHost_group_observations (host : Host) :
  snd (processHost host) = None ->
  setsOf hostGroupMembership (fst (processHost host)) =
    setsOf hostGroupMembership
      (fst (processHostGroups host (Itoa (Host_ID host))
              (Itoa (Inventory_ID
                       (SummaryFields_Inventory (Host_SummaryFields host))))))
  /\ setsOf groupInfo (fst (processHost host)) =
       setsOf groupInfo
         (fst (processHostGroups host (Itoa (Host_ID host))
                 (Itoa (Inventory_ID
                          (SummaryFields_Inventory (Host_SummaryFields host)))))).
Proof.
  rewrite processHost_snd, processHost_fst. cbv zeta. intros ->.
  split.
  - change (GaugeSet hostInfo ?l ?v :: ?ops) with ([GaugeSet hostInfo l v] ++ ops).
    by rewrite !setsOf_app, setsOf_processHostStatus,
      setsOf_processHostTimestamps.
  - change (GaugeSet hostInfo ?l ?v :: ?ops) with ([GaugeSet hostInfo l v] ++ ops).
    by rewrite !setsOf_app, setsOf_processHostStatus,
      setsOf_processHostTimestamps.
Qed.

(** The status observations of [processHost] are those of
    [processHostStatus], whatever happens to the timestamps. *)
Lemma processHost_status_observations (host : Host) :
  setsOf hostStatus (fst (processHost host)) =
    setsOf hostStatus (fst (processHostStatus host (Itoa (Host_ID host)))).
Proof.
  rewrite processHost_fst. cbv zeta.
  change (GaugeSet hostInfo ?l ?v :: ?ops) with ([GaugeSet hostInfo l v] ++ ops).
  rewrite !setsOf_app, setsOf_processHostTimestamps by done.
  destruct (snd (processHostTimestamps host (Itoa (Host_ID host)))).
  - by rewrite !app_nil_r.
  - rewrite processHostGroups_eq. cbn [fst].
    rewrite (setsOf_flat_map_groups _ _ (fun _ => [])) by done.
    assert (flat_map (fun _ : Group => @nil (list string * Z)) (hostGroups host)
            = []) as -> by (by induction (hostGroups host)).
    by rewrite !app_nil_r.
Qed.

End ProcessHost.

(** C2: the code departs from the claim.  On host [hostGamma], whose
    [modified] is not RFC3339 and which belongs to one group, [processHost]
    writes the info gauge, the two status gauges and the [created]
    timestamp and then returns the parse error: the facts-modified
    timestamp, the group membership and the group info are not written.
    The earlier single-file exporter writes all of them for the same host. *)
Theorem C2_unparseable_modified_skips_groups :
  @time_Parse_RFC3339 sampleRuntime (Host_Modified hostGamma)
    = Err (ErrMsg "cannot parse as RFC3339")
  /\ @processHost sampleRuntime hostGamma =
       ([GaugeSet hostInfo ["5"; "gamma"; "3"; "prod"; "true"; ""] 1;
         GaugeSet hostStatus ["5"; "gamma"; "active_failures"; "web"] 1;
         GaugeSet hostStatus ["5"; "gamma"; "inventory_sources"; "web"] 0;
         GaugeSet hostTimestamps ["5"; "gamma"; "created"] 1704164645],
        Some (ErrMsg "cannot parse as RFC3339"))
  /\ setsOf hostGroupMembership (fst (@processHost sampleRuntime hostGamma)) = []
  /\ setsOf groupInfo (fst (@processHost sampleRuntime hostGamma)) = []
  /\ setsOf hostGroupMembership (@Legacy.processHosts sampleRuntime [hostGamma])
     = [(["5"; "gamma"; "7"; "web"], 1)]
  /\ setsOf groupInfo (@Legacy.processHosts sampleRuntime [hostGamma])
     = [(["7"; "web"; "3"], 1)]
  /\ setsOf hostTimestamps (@Legacy.processHosts sampleRuntime [hostGamma])
     = [(["5"; "gamma"; "created"], 1704164645);
        (["5"; "gamma"; "ansible_facts_modified"], 1704164645)].
Proof. repeat split; reflexivity. Qed.

(** C3: the code departs from the claim, through the early return shown
    for C2.  [processHost] on [hostAlpha] (two groups, timestamps parse)
    writes 4 status, 2 membership and 2 group-info observations keyed by
    the host id and the inventory id, and on [hostBeta] (no groups) the two
    status observations labelled ["none"] and nothing else for groups, as
    the claim says.  On [hostGamma] (one group, [modified] not RFC3339) it
    writes the 2 status observations but no membership and no group-info
    observation, where the claim has one of each. *)
Theorem C3_processHost_observations_per_host :
  (length (hostGroups hostAlpha) = 2%nat
   /\ snd (@processHost sampleRuntime hostAlpha) = None
   /\ setsOf hostStatus (fst (@processHost sampleRuntime hostAlpha)) =
        [(["1"; "alpha"; "active_failures"; "web"], 1);
         (["1"; "alpha"; "inventory_sources"; "web"], 0);
         (["1"; "alpha"; "active_failures"; "db"], 1);
         (["1"; "alpha"; "inventory_sources"; "db"], 0)]
   /\ setsOf hostGroupMembership (fst (@processHost sampleRuntime hostAlpha)) =
        [(["1"; "alpha"; "7"; "web"], 1); (["1"; "alpha"; "8"; "db"], 1)]
   /\ setsOf groupInfo (fst (@processHost sampleRuntime hostAlpha)) =
        [(["7"; "web"; "3"], 1); (["8"; "db"; "3"], 1)])
  /\ (length (hostGroups hostBeta) = 0%nat
      /\ setsOf hostStatus (fst (@processHost sampleRuntime hostBeta)) =
           [(["2"; "beta"; "active_failures"; "none"], 1);
            (["2"; "beta"; "inventory_sources"; "none"], 0)]
      /\ setsOf hostGroupMembership (fst (@processHost sampleRuntime hostBeta))
         = []
      /\ setsOf groupInfo (fst (@processHost sampleRuntime hostBeta)) = [])
  /\ (length (hostGroups hostGamma) = 1%nat
      /\ snd (@processHost sampleRuntime hostGamma)
         = Some (ErrMsg "cannot parse as RFC3339")
      /\ setsOf hostStatus (fst (@processHost sampleRuntime hostGamma)) =
           [(["5"; "gamma"; "active_failures"; "web"], 1);
            (["5"; "gamma"; "inventory_sources"; "web"], 0)]
      /\ setsOf hostGroupMembership (fst (@processHost sampleRuntime hostGamma))
         = []
      /\ setsOf groupInfo (fst (@processHost sampleRuntime hostGamma)) = []).
Proof. repeat split; reflexivity. Qed.

(** ** Job templates *)

Lemma JobTemplates_exec_app (ops1 ops2 : list JobTemplates.Op)
    (r : gmap (JobTemplates.Family * list string) Z) :
  JobTemplates.exec (ops1 ++ ops2) r
    = JobTemplates.exec ops2 (JobTemplates.exec ops1 r).
Proof. unfold JobTemplates.exec. apply foldl_app. Qed.

(** C6: processing a job template sets, under the labels (template id,
    template name), the failed-host gauge and the total-host gauge to the
    two numbers of the embedded inventory summary, and sets the last-run
    gauge to the parsed Unix seconds only if [last_job_run] is non-empty
    and parses; otherwise the last-run series is left as it was.  No other
    series changes, and a decoded page is processed template by template,
    in order. *)
Theorem C6_job_template_gauges `{GoRuntime}
    (template : JobTemplates.JobTemplate)
    (response : JobTemplates.JobTemplateResponse)
    (r : gmap (JobTemplates.Family * list string) Z) :
  let labels :=
    [Itoa (JobTemplates.JobTemplate_ID template);
     JobTemplates.JobTemplate_Name template] in
  let summary :=
    JobTemplates.SummaryFields_Inventory
      (JobTemplates.JobTemplate_SummaryFields template) in
  let lastJobRun := JobTemplates.JobTemplate_LastJobRun template in
  let r' := JobTemplates.exec (JobTemplates.scrapeTemplate template) r in
  (forall (f : JobTemplates.Family) (lvs : list string),
     r' !! (f, lvs) =
       if decide (lvs = labels) then
         match f with
         | JobTemplates.inventoryFailedHosts =>
             Some (JobTemplates.Inventory_HostsWithFailures summary)
         | JobTemplates.inventoryTotalHosts =>
             Some (JobTemplates.Inventory_TotalHosts summary)
         | JobTemplates.jobLastRunTimestamp =>
             if String.eqb lastJobRun "" then r !! (f, lvs)
             else
               match time_Parse_RFC3339 lastJobRun with
               | Ok finishedTime => Some finishedTime
               | Err _ => r !! (f, lvs)
               end
         end
       else r !! (f, lvs))
  /\ JobTemplates.exec (JobTemplates.scrapePage response) r =
       foldl (fun acc t => JobTemplates.exec (JobTemplates.scrapeTemplate t) acc)
         r (JobTemplates.JobTemplateResponse_Results response).
Proof.
  cbv zeta. split.
  - intros f lvs. unfold JobTemplates.scrapeTemplate.
    rewrite JobTemplates_exec_app.
    set (labels := [Itoa (JobTemplates.JobTemplate_ID template);
                    JobTemplates.JobTemplate_Name template]).
    set (r1 := JobTemplates.exec _ r).
    assert (r1 !! (f, lvs) =
              if decide ((f, lvs) = (JobTemplates.jobLastRunTimestamp, labels))
              then
                if String.eqb (JobTemplates.JobTemplate_LastJobRun template) ""
                then r !! (f, lvs)
                else
                  match time_Parse_RFC3339
                          (JobTemplates.JobTemplate_LastJobRun template) with
                  | Ok finishedTime => Some finishedTime
                  | Err _ => r !! (f, lvs)
                  end
              else r !! (f, lvs)) as Hr1.
    { subst r1.
      destruct (String.eqb (JobTemplates.JobTemplate_LastJobRun template) "");
        cbn [negb]; [by case_decide|].
      destruct (time_Parse_RFC3339
                  (JobTemplates.JobTemplate_LastJobRun template));
        [|by case_decide].
      cbn [JobTemplates.exec foldl JobTemplates.apply].
      case_decide as Hk.
      - rewrite Hk. by rewrite lookup_insert_eq.
      - by rewrite lookup_insert_ne. }
    cbn [JobTemplates.exec foldl JobTemplates.apply].
    destruct (decide (lvs = labels)) as [->|Hne].
    + destruct f.
      * rewrite !lookup_insert_ne by congruence. rewrite Hr1.
        by rewrite decide_True.
      * rewrite lookup_insert_ne by congruence. by rewrite lookup_insert_eq.
      * by rewrite lookup_insert_eq.
    + rewrite !lookup_insert_ne by congruence. rewrite Hr1.
      by rewrite decide_False by congruence.
  - unfold JobTemplates.scrapePage.
    revert r.
    induction (JobTemplates.JobTemplateResponse_Results response)
      as [|t ts IH]; intros r; [reflexivity|].
    cbn [flat_map foldl]. by rewrite JobTemplates_exec_app, IH.
Qed.

(** A template without a last run, one with a malformed one, one with a
    good one. *)
Example scrapeTemplate_samples :
  @JobTemplates.scrapeTemplate sampleRuntime (sampleTemplate "") =
    [JobTemplates.GaugeSet JobTemplates.inventoryFailedHosts ["11"; "deploy"] 2;
     JobTemplates.GaugeSet JobTemplates.inventoryTotalHosts ["11"; "deploy"] 40]
  /\ @JobTemplates.scrapeTemplate sampleRuntime (sampleTemplate "last week") =
       [JobTemplates.GaugeSet JobTemplates.inventoryFailedHosts ["11"; "deploy"] 2;
        JobTemplates.GaugeSet JobTemplates.inventoryTotalHosts ["11"; "deploy"] 40]
  /\ @JobTemplates.scrapeTemplate sampleRuntime (sampleTemplate sampleTime) =
       [JobTemplates.GaugeSet JobTemplates.jobLastRunTimestamp ["11"; "deploy"]
          1704164645;
        JobTemplates.GaugeSet JobTemplates.inventoryFailedHosts ["11"; "deploy"] 2;
        JobTemplates.GaugeSet JobTemplates.inventoryTotalHosts ["11"; "deploy"] 40].
Proof. repeat split; reflexivity. Qed.

(** ** Resolving the next page *)

Lemma isAbsolute_nonempty (next : string) : isAbsolute next = true -> next ≠ "".
Proof. intros Ha ->. discriminate. Qed.

Lemma isSentinel_not_absolute (next : string) :
  isSentinel next = true -> isAbsolute next = false.
Proof.
  unfold isSentinel. intros Hs. apply orb_true_iff in Hs as [Hs|Hs];
    apply String.eqb_eq in Hs; by subst.
Qed.

Lemma buildURL_resolved (config : AWXConfig) (next : string) :
  buildURL config next =
    if isAbsolute next then next
    else if isSentinel next then ""
    else resolveAgainst config (withLeadingSlash next).
Proof.
  unfold buildURL, isAbsolute, isSentinel, resolveAgainst, withLeadingSlash.
  destruct (HasPrefix next "http://" || HasPrefix next "https://");
    [reflexivity|].
  destruct (String.eqb next "/" || String.eqb next ""); [reflexivity|].
  by destruct (HasPrefix next "/").
Qed.

Lemma buildURL_nonempty (config : AWXConfig) (next : string) :
  isSentinel next = false -> buildURL config next ≠ "".
Proof.
  intros Hs. rewrite buildURL_resolved, Hs.
  destruct (isAbsolute next) eqn:Ha; [by apply isAbsolute_nonempty|].
  unfold resolveAgainst. by destruct (AWXConfig_UseHTTP config).
Qed.

Section Pagination.
Context `{GoRuntime}.

(** One iteration of the loop fetches its URL once; the fetches after it
    are those of the iterations that follow. *)
Lemma fetchLoop_fetches (fuel : nat) (up : Upstream) (config : AWXConfig)
    (url : string) (n : nat) :
  url ≠ "" ->
  fetches (fst (fetchLoop (S fuel) up config url n)) =
    url ::
    match readPage up config n url with
    | Ok page =>
        fetches (fst (fetchLoop fuel up config
                        (buildURL config (HostResponse_Next page)) (S n)))
    | Err _ => []
    end.
Proof.
  intros Hne. rewrite (fetchLoop_step _ _ _ _ _ Hne).
  destruct (readPage up config n url) as [page|err]; [|reflexivity].
  cbv zeta. cbn [fst].
  change (Fetch url :: ?ops) with ([Fetch url] ++ ops).
  rewrite !fetches_app.
  by destruct (processHosts_quiet (HostResponse_Results page)) as (_ & _ & ->).
Qed.

End Pagination.

(** C4: after a page has been fetched and decoded, the loop goes on from
    the resolution of its [next] field.  A value starting with [http://] or
    [https://] is taken as it is; the empty string and ["/"] resolve to the
    empty URL, on which the loop ends without a further fetch and without
    an error; every other value is resolved against the configured scheme
    and host (with a leading slash added when missing), the result is not
    empty, and the iteration it starts calls the fetch once, on exactly
    that URL. *)
Theorem C4_next_field_resolution `{GoRuntime} (up : Upstream)
    (config : AWXConfig) (fuel n : nat) (url : string) (page : HostResponse) :
  url ≠ "" ->
  readPage up config n url = Ok page ->
  let next := HostResponse_Next page in
  let resolved := buildURL config next in
  resolved =
    (if isAbsolute next then next
     else if isSentinel next then ""
     else resolveAgainst config (withLeadingSlash next))
  /\ fetchLoop (S fuel) up config url n =
       (Fetch url :: processHosts (HostResponse_Results page)
          ++ fst (fetchLoop fuel up config resolved (S n)),
        snd (fetchLoop fuel up config resolved (S n)))
  /\ (if isSentinel next then
        fetchLoop fuel up config resolved (S n) = ([], Returned None)
      else
        resolved ≠ ""
        /\ forall fuel' : nat,
             fetches (fst (fetchLoop (S fuel') up config resolved (S n))) =
               resolved ::
               match readPage up config (S n) resolved with
               | Ok page' =>
                   fetches
                     (fst (fetchLoop fuel' up config
                             (buildURL config (HostResponse_Next page'))
                             (S (S n))))
               | Err _ => []
               end).
Proof.
  intros Hne Hread. cbv zeta. split; [apply buildURL_resolved|]. split.
  - by rewrite (fetchLoop_step _ _ _ _ _ Hne), Hread.
  - destruct (isSentinel (HostResponse_Next page)) eqn:Hs.
    + rewrite buildURL_resolved, Hs, (isSentinel_not_absolute _ Hs).
      apply fetchLoop_done.
    + split; [by apply buildURL_nonempty|].
      intros fuel'. apply fetchLoop_fetches. by apply buildURL_nonempty.
Qed.

Lemma C4_next_field_resolution_witness :
  startURL sampleConfig ≠ ""
  /\ @readPage sampleRuntime upstreamCutSecondPage sampleConfig 0
       (startURL sampleConfig) = Ok pageFirst
  /\ buildURL sampleConfig (HostResponse_Next pageFirst)
     = "https://awx.example.org/api/v2/hosts/?format=json&page=2"
  /\ fetches (fst (@fetchLoop sampleRuntime 3 upstreamCutSecondPage sampleConfig
                     (buildURL sampleConfig (HostResponse_Next pageFirst)) 1))
     = ["https://awx.example.org/api/v2/hosts/?format=json&page=2"].
Proof.
  assert (startURL sampleConfig ≠ "") as Hne by discriminate.
  assert (@readPage sampleRuntime upstreamCutSecondPage sampleConfig 0
            (startURL sampleConfig) = Ok pageFirst) as Hread by reflexivity.
  destruct (@C4_next_field_resolution sampleRuntime upstreamCutSecondPage
              sampleConfig 3 0 (startURL sampleConfig) pageFirst Hne Hread)
    as (Hres & _ & Hnext).
  split; [exact Hne|]. split; [exact Hread|]. split; [exact Hres|].
  destruct Hnext as [_ Hfetch]. exact (Hfetch 2%nat).
Defined.

(** ** The fetch operation *)

Lemma Contains_html_nonempty (body : string) :
  Contains body "<html" = true -> Nat.ltb 0 (String.length body) = true.
Proof. by destruct body. Qed.

(** C5 as stated fails: a 204 answer, a success status, makes the fetch
    return the status error; and the status error of a 500 answer with a
    body of 300 bytes carries all 300 bytes. *)
Lemma C5_counterexample :
  snd (@makeAWXRequest sampleRuntime (upstreamStatus 204 "204 No Content" "")
         sampleConfig 0 "https://awx.example.org/api/v2/hosts/?format=json")
    = Err (ErrAPIStatus 204 "204 No Content" "")
  /\ snd (@makeAWXRequest sampleRuntime
            (upstreamStatus 500 "500 Internal Server Error" longBody)
            sampleConfig 0 "https://awx.example.org/api/v2/hosts/?format=json")
     = Err (ErrAPIStatus 500 "500 Internal Server Error" longBody)
  /\ String.length longBody = 300%nat.
Proof. repeat split; reflexivity. Qed.

(** C5, amended: for a response handed back by the transport, the fetch
    returns the status error exactly when the status code is not 200, and
    that error carries the status code, the status text and the whole body
    read, which its message ends with; a 200 response whose body was read
    and contains ["<html"] makes the fetch return the HTML error, and the
    loop then counts the error and returns it, whatever the JSON decoder
    would make of the body; the body is returned exactly for a 200 response
    that was read without error and has no ["<html"] in it. *)
Theorem C5_fetch_errors `{GoRuntime} (up : Upstream) (config : AWXConfig)
    (n : nat) (url : string) (resp : Response) :
  http_NewRequest url = None ->
  Do up n url = Ok resp ->
  let res := snd (makeAWXRequest up config n url) in
  (StatusCode resp ≠ 200 <->
     res = Err (ErrAPIStatus (StatusCode resp) (Status resp) (Body resp)))
  /\ Error (ErrAPIStatus (StatusCode resp) (Status resp) (Body resp))
     = "API request failed with status " +:+ Itoa (StatusCode resp) +:+ ": "
         +:+ Status resp +:+ ", body: " +:+ Body resp
  /\ (StatusCode resp = 200 -> BodyErr resp = None ->
      Contains (Body resp) "<html" = true ->
      res = Err (ErrHTMLResponse url)
      /\ forall fuel : nat, url ≠ "" ->
           fetchLoop (S fuel) up config url n =
             ([Fetch url; ErrorsInc],
              Returned (Some (ErrFetchData url (ErrHTMLResponse url)))))
  /\ (res = Ok (Body resp) <->
        StatusCode resp = 200 /\ BodyErr resp = None
        /\ Contains (Body resp) "<html" = false).
Proof.
  intros Hreq Hdo. cbv zeta. rewrite makeAWXRequest_snd, Hreq, Hdo.
  unfold StatusOK.
  split; [|split; [reflexivity|split]].
  - destruct (Z.eqb_spec (StatusCode resp) 200) as [Hc|Hc]; cbn [negb].
    + split; [done|]. intros Hres.
      destruct (BodyErr resp); [discriminate|].
      by destruct (Nat.ltb 0 (String.length (Body resp))
                   && Contains (Body resp) "<html").
    + done.
  - intros Hc Hb Hhtml.
    assert (snd (makeAWXRequest up config n url) = Err (ErrHTMLResponse url))
      as Hres.
    { rewrite makeAWXRequest_snd, Hreq, Hdo. unfold StatusOK.
      rewrite Hc, Hb, Hhtml, (Contains_html_nonempty _ Hhtml). reflexivity. }
    split.
    + rewrite Hc, Hb, Hhtml, (Contains_html_nonempty _ Hhtml). reflexivity.
    + intros fuel Hne. rewrite (fetchLoop_step _ _ _ _ _ Hne).
      unfold readPage. by rewrite Hres.
  - destruct (Z.eqb_spec (StatusCode resp) 200) as [Hc|Hc]; cbn [negb].
    + destruct (BodyErr resp) as [err|].
      * split; [discriminate|]. by intros (_ & ? & _).
      * destruct (Contains (Body resp) "<html") eqn:Hhtml.
        -- rewrite (Contains_html_nonempty _ Hhtml). cbn [andb].
           split; [discriminate|]. by intros (_ & _ & ?).
        -- rewrite andb_false_r. done.
    + split; [discriminate|]. by intros (? & _).
Qed.

Lemma C5_fetch_errors_witness :
  snd (@makeAWXRequest sampleRuntime
         (upstreamStatus 200 "200 OK" "<!DOCTYPE html><html><body>Login")
         sampleConfig 0 "https://awx.example.org/api/v2/hosts/?format=json")
    = Err (ErrHTMLResponse "https://awx.example.org/api/v2/hosts/?format=json")
  /\ @fetchLoop sampleRuntime 4
       (upstreamStatus 200 "200 OK" "<!DOCTYPE html><html><body>Login")
       sampleConfig "https://awx.example.org/api/v2/hosts/?format=json" 0
     = ([Fetch "https://awx.example.org/api/v2/hosts/?format=json"; ErrorsInc],
        Returned
          (Some (ErrFetchData "https://awx.example.org/api/v2/hosts/?format=json"
                   (ErrHTMLResponse
                      "https://awx.example.org/api/v2/hosts/?format=json")))).
Proof.
  destruct (@C5_fetch_errors sampleRuntime
              (upstreamStatus 200 "200 OK" "<!DOCTYPE html><html><body>Login")
              sampleConfig 0 "https://awx.example.org/api/v2/hosts/?format=json"
              {| StatusCode := 200; Status := "200 OK";
                 Body := "<!DOCTYPE html><html><body>Login"; BodyErr := None |}
              eq_refl eq_refl) as (_ & _ & Hhtml & _).
  destruct (Hhtml eq_refl eq_refl eq_refl) as [Hres Hloop].
  split; [exact Hres|]. apply Hloop. discriminate.
Defined.

(** ** Startup *)

(** C7 as stated fails for the host exporter: with [SCRAPE_INTERVAL=abc],
    which is neither a number of minutes nor a duration, it starts and runs
    with the default interval of five minutes. *)
Lemma C7_counterexample :
  Atoi "abc" = None
  /\ @time_ParseDuration sampleRuntime "abc" = Err (ErrMsg "invalid duration")
  /\ main (sampleEnv (Some "abc"))
     = Serving sampleConfig defaultScrapeInterval "8080".
Proof. repeat split; reflexivity. Qed.

(** C7, amended: in the job-template exporter an interval string that does
    not parse as a duration is a fatal startup error; in the host exporter a
    [SCRAPE_INTERVAL] that is unset, empty, not an integer or not positive
    is not an error: [getScrapeInterval] falls back to five minutes, and
    startup fails only on the checks of [loadConfig]. *)
Theorem C7_invalid_interval `{GoRuntime} (env : Env) :
  (forall err : error,
     time_ParseDuration (JobTemplates.getEnv env "SCRAPE_INTERVAL" "24h")
       = Err err ->
     JobTemplates.main env =
       Fatal ("Configuration error: " +:+
              Error (if String.eqb (Getenv env "AWX_USERNAME") ""
                        || String.eqb (Getenv env "AWX_PASSWORD") ""
                     then ErrMsg "AWX_USERNAME and AWX_PASSWORD must be set"
                     else ErrInvalidInterval err)))
  /\ (acceptedMinutes (Getenv env "SCRAPE_INTERVAL") = false ->
      getScrapeInterval env = defaultScrapeInterval
      /\ main env =
           match loadConfig env with
           | Err msg => Fatal msg
           | Ok config => Serving config defaultScrapeInterval (getPort env)
           end).
Proof.
  split.
  - intros err Herr. unfold JobTemplates.main, JobTemplates.loadConfig.
    destruct (String.eqb (Getenv env "AWX_USERNAME") ""
              || String.eqb (Getenv env "AWX_PASSWORD") ""); [reflexivity|].
    by rewrite Herr.
  - intros Hacc.
    assert (getScrapeInterval env = defaultScrapeInterval) as Hdef.
    { unfold getScrapeInterval. unfold acceptedMinutes in Hacc.
      destruct (negb (String.eqb (Getenv env "SCRAPE_INTERVAL") ""));
        [|reflexivity].
      destruct (Atoi (Getenv env "SCRAPE_INTERVAL")) as [minutes|];
        [|reflexivity].
      by rewrite Hacc. }
    split; [exact Hdef|]. unfold main. by rewrite Hdef.
Qed.

Lemma C7_invalid_interval_witness :
  @JobTemplates.main sampleRuntime (sampleEnv (Some "abc"))
    = Fatal "Configuration error: invalid SCRAPE_INTERVAL duration: invalid duration"
  /\ getScrapeInterval (sampleEnv (Some "90s")) = defaultScrapeInterval
  /\ main (sampleEnv (Some "90s"))
     = Serving sampleConfig defaultScrapeInterval "8080".
Proof.
  destruct (@C7_invalid_interval sampleRuntime (sampleEnv (Some "abc")))
    as [Hjob _].
  destruct (@C7_invalid_interval sampleRuntime (sampleEnv (Some "90s")))
    as [_ Hhost].
  split; [exact (Hjob (ErrMsg "invalid duration") eq_refl)|].
  exact (Hhost eq_refl).
Defined.

(** ** Whole collections *)

Section WholeCollections.
Context `{GoRuntime}.

(** The registry after a collection that read [pages] and then failed. *)
Lemma collect_failed (fuel : nat) (up : Upstream) (config : AWXConfig)
    (pages : list HostResponse) (url : string) (n : nat) (err : error)
    (r : Registry) :
  PagesRead up config (startURL config) 0 pages url n ->
  url ≠ "" ->
  readPage up config n url = Err err ->
  (length pages < fuel)%nat ->
  snd (collect fuel up config) = Returned (Some err)
  /\ exec (fst (collect fuel up config)) r =
       {| gauges := gauges (exec (transform pages) emptyRegistry);
          scrapeDuration := scrapeDuration r ++ [elapsed up];
          scrapeErrors := scrapeErrors r + 2;
          hostsProcessed :=
            hostsProcessed r
            + Z.of_nat (length (flat_map HostResponse_Results pages)) |}.
Proof.
  intros Hpages Hne Hread Hfuel.
  assert (exists k, fuel = (length pages + S k)%nat) as [k ->]
    by (exists (fuel - length pages - 1)%nat; lia).
  pose proof (fetchLoop_reads _ _ _ _ _ _ _ Hpages (S k)) as Hloop.
  cbv zeta in Hloop.
  rewrite (fetchLoop_step _ _ _ _ _ Hne), Hread in Hloop. cbn [fst snd] in Hloop.
  rewrite collect_eq, fetchAndUpdateMetrics_eq. cbv zeta. cbn [fst snd].
  destruct (Hloop r) as (_ & Hout & _). rewrite Hout.
  split; [reflexivity|].
  rewrite !exec_app.
  destruct (Hloop (exec ResetAllMetrics r)) as (-> & _ & _).
  set (r2 := exec (transform pages) (exec ResetAllMetrics r)).
  assert (gauges r2 = gauges (exec (transform pages) emptyRegistry)) as Hg.
  { apply gauges_exec_ext. by rewrite gauges_ResetAllMetrics. }
  assert (scrapeErrors r2 = scrapeErrors r) as He.
  { unfold r2. rewrite !scrapeErrors_exec.
    destruct (transform_quiet pages) as [-> _]. cbn. lia. }
  assert (hostsProcessed r2
          = hostsProcessed r
            + Z.of_nat (length (flat_map HostResponse_Results pages))) as Hh.
  { unfold r2. rewrite !hostsProcessed_exec, transform_hostsAdded. cbn. lia. }
  assert (scrapeDuration r2 = scrapeDuration r) as Hd.
  { unfold r2. rewrite !scrapeDuration_exec.
    destruct (transform_quiet pages) as [_ ->]. cbn. by rewrite !app_nil_r. }
  cbn [exec foldl apply RecordScrapeError gauges scrapeDuration scrapeErrors
         hostsProcessed].
  rewrite Hg, He, Hh, Hd. f_equal. lia.
Qed.

(** The registry after a collection that read [pages], the last of which
    has no next page: the loop ends and no error is counted. *)
Lemma collect_succeeds (fuel : nat) (up : Upstream) (config : AWXConfig)
    (pages : list HostResponse) (n : nat) (r : Registry) :
  PagesRead up config (startURL config) 0 pages "" n ->
  (length pages <= fuel)%nat ->
  snd (collect fuel up config) = Returned None
  /\ length (fetches (fst (collect fuel up config))) = length pages
  /\ exec (fst (collect fuel up config)) r =
       {| gauges := gauges (exec (transform pages) emptyRegistry);
          scrapeDuration := scrapeDuration r ++ [elapsed up];
          scrapeErrors := scrapeErrors r;
          hostsProcessed :=
            hostsProcessed r
            + Z.of_nat (length (flat_map HostResponse_Results pages)) |}.
Proof.
  intros Hpages Hfuel.
  assert (exists k, fuel = (length pages + k)%nat) as [k ->]
    by (exists (fuel - length pages)%nat; lia).
  pose proof (fetchLoop_reads _ _ _ _ _ _ _ Hpages k) as Hloop.
  cbv zeta in Hloop. rewrite fetchLoop_done in Hloop. cbn [fst snd] in Hloop.
  rewrite collect_eq, fetchAndUpdateMetrics_eq. cbv zeta. cbn [fst snd].
  destruct (Hloop r) as (_ & Hout & Hfetch). rewrite Hout.
  split; [reflexivity|]. split.
  - rewrite !fetches_app, !length_app, Hfetch. cbn. lia.
  - rewrite !exec_app.
    destruct (Hloop (exec ResetAllMetrics r)) as (-> & _ & _).
    set (r2 := exec (transform pages) (exec ResetAllMetrics r)).
    assert (gauges r2 = gauges (exec (transform pages) emptyRegistry)) as Hg.
    { apply gauges_exec_ext. by rewrite gauges_ResetAllMetrics. }
    assert (scrapeErrors r2 = scrapeErrors r) as He.
    { unfold r2. rewrite !scrapeErrors_exec.
      destruct (transform_quiet pages) as [-> _]. cbn. lia. }
    assert (hostsProcessed r2
            = hostsProcessed r
              + Z.of_nat (length (flat_map HostResponse_Results pages))) as Hh.
    { unfold r2. rewrite !hostsProcessed_exec, transform_hostsAdded. cbn. lia. }
    assert (scrapeDuration r2 = scrapeDuration r) as Hd.
    { unfold r2. rewrite !scrapeDuration_exec.
      destruct (transform_quiet pages) as [_ ->]. cbn. by rewrite !app_nil_r. }
    cbn [exec foldl apply gauges scrapeDuration scrapeErrors hostsProcessed].
    by rewrite Hg, He, Hh, Hd.
Qed.

End WholeCollections.

(** C1 as stated fails: after a successful scrape that published
    [hostBeta], a scrape whose second page does not decode leaves a registry
    in which the series of [hostBeta] is gone and the series of [hostAlpha],
    read from the first page of the failed scrape, is published. *)
Lemma C1_counterexample :
  let previous :=
    exec (fst (@collect sampleRuntime 5 upstreamOnePage sampleConfig))
      emptyRegistry in
  let after :=
    exec (fst (@collect sampleRuntime 5 upstreamCutSecondPage sampleConfig))
      previous in
  snd (@collect sampleRuntime 5 upstreamOnePage sampleConfig) = Returned None
  /\ snd (@collect sampleRuntime 5 upstreamCutSecondPage sampleConfig)
     = Returned
         (Some (ErrParsingJSON
                  "https://awx.example.org/api/v2/hosts/?format=json&page=2"
                  (ErrMsg "unexpected end of JSON input")))
  /\ series previous hostInfo ["2"; "beta"; "3"; "prod"; "true"; ""] = Some 1
  /\ series after hostInfo ["2"; "beta"; "3"; "prod"; "true"; ""] = None
  /\ series after hostInfo ["1"; "alpha"; "3"; "prod"; "true"; ""] = Some 1
  /\ gauges after <> gauges previous.
Proof.
  cbv zeta. repeat split; try (vm_compute; reflexivity).
  intros Heq.
  apply (f_equal (fun m => m !! (hostInfo, ["2"; "beta"; "3"; "prod"; "true"; ""])))
    in Heq.
  vm_compute in Heq. discriminate.
Qed.

(** C1, amended: when the upstream serves some pages without error and the
    fetch or the decoding of the page after them fails, the collection
    returns that error (given fuel for these pages and one more), and the
    gauge families afterwards hold exactly what the transformer wrote for
    the pages read, on an empty registry: the series of the previous scrape
    are gone and the earlier pages of the failed scrape are published.  The
    failure is counted in [scrape_errors_total], the hosts read are added
    to [hosts_processed_total] and the duration is observed. *)
Theorem C1_failed_scrape_publishes_read_pages `{GoRuntime} (fuel : nat)
    (up : Upstream) (config : AWXConfig) (pages : list HostResponse)
    (url : string) (n : nat) (err : error) (r : Registry) :
  PagesRead up config (startURL config) 0 pages url n ->
  url ≠ "" ->
  readPage up config n url = Err err ->
  (length pages < fuel)%nat ->
  let r' := exec (fst (collect fuel up config)) r in
  snd (collect fuel up config) = Returned (Some err)
  /\ gauges r' = gauges (exec (transform pages) emptyRegistry)
  /\ scrapeErrors r < scrapeErrors r'
  /\ hostsProcessed r'
     = hostsProcessed r + Z.of_nat (length (flat_map HostResponse_Results pages))
  /\ scrapeDuration r' = scrapeDuration r ++ [elapsed up].
Proof.
  intros Hpages Hne Hread Hfuel. cbv zeta.
  destruct (collect_failed fuel up config pages url n err r Hpages Hne Hread
              Hfuel) as [Hout ->].
  cbn [gauges scrapeErrors hostsProcessed scrapeDuration].
  repeat split; try done. lia.
Qed.

Lemma C1_failed_scrape_publishes_read_pages_witness :
  snd (@collect sampleRuntime 5 upstreamCutSecondPage sampleConfig)
    = Returned
        (Some (ErrParsingJSON
                 "https://awx.example.org/api/v2/hosts/?format=json&page=2"
                 (ErrMsg "unexpected end of JSON input")))
  /\ gauges (exec (fst (@collect sampleRuntime 5 upstreamCutSecondPage
                          sampleConfig)) emptyRegistry)
     = gauges (exec (@transform sampleRuntime [pageFirst]) emptyRegistry).
Proof.
  assert (@PagesRead sampleRuntime upstreamCutSecondPage sampleConfig
            (startURL sampleConfig) 0 [pageFirst]
            "https://awx.example.org/api/v2/hosts/?format=json&page=2" 1)
    as Hpages.
  { eapply (@PagesRead_cons sampleRuntime); [discriminate|reflexivity|].
    apply (@PagesRead_nil sampleRuntime). }
  destruct (@C1_failed_scrape_publishes_read_pages sampleRuntime 5
              upstreamCutSecondPage sampleConfig [pageFirst]
              "https://awx.example.org/api/v2/hosts/?format=json&page=2" 1
              (ErrParsingJSON
                 "https://awx.example.org/api/v2/hosts/?format=json&page=2"
                 (ErrMsg "unexpected end of JSON input"))
              emptyRegistry Hpages) as (Hout & Hg & _).
  - discriminate.
  - reflexivity.
  - cbn. lia.
  - split; [exact Hout | exact Hg].
Defined.

(** * Further properties of the code *)

(** ** URLs *)

Lemma resolveAgainst_absolute (config : AWXConfig) (path : string) :
  isAbsolute (resolveAgainst config path) = true.
Proof.
  unfold resolveAgainst.
  destruct (AWXConfig_UseHTTP config);
    by destruct (AWXConfig_Host config +:+ path).
Qed.

Lemma buildURL_absolute (config : AWXConfig) (next : string) :
  isSentinel next = false -> isAbsolute (buildURL config next) = true.
Proof.
  intros Hs. rewrite buildURL_resolved, Hs.
  destruct (isAbsolute next) eqn:Ha; [exact Ha|].
  apply resolveAgainst_absolute.
Qed.

(** X1: [buildURL] returns the empty URL exactly for the two sentinels and
    an absolute URL for everything else; it never hands a relative URL to
    the loop, and resolving a resolved URL again changes nothing. *)
Theorem buildURL_empty_or_absolute (config : AWXConfig) (next : string) :
  String.eqb (buildURL config next) "" = isSentinel next
  /\ isAbsolute (buildURL config next) = negb (isSentinel next)
  /\ buildURL config (buildURL config next) = buildURL config next.
Proof.
  destruct (isSentinel next) eqn:Hs.
  - assert (buildURL config next = "") as ->.
    { by rewrite buildURL_resolved, Hs, (isSentinel_not_absolute _ Hs). }
    done.
  - pose proof (buildURL_absolute config next Hs) as Ha.
    pose proof (buildURL_nonempty config next Hs) as Hne.
    split; [by apply String.eqb_neq|]. split; [exact Ha|].
    by rewrite (buildURL_resolved config (buildURL config next)), Ha.
Qed.

(** ** Pages and their boundaries *)

Lemma apply_HostsAdd_comm (r : Registry) (o : Op) (n : Z) :
  apply (apply r (HostsAdd n)) o = apply (apply r o) (HostsAdd n).
Proof. destruct o; cbn; f_equal; lia. Qed.

Lemma exec_single (o : Op) (r : Registry) : exec [o] r = apply r o.
Proof. reflexivity. Qed.

Lemma exec_HostsAdd_comm (ops : list Op) (r : Registry) (n : Z) :
  exec ops (apply r (HostsAdd n)) = apply (exec ops r) (HostsAdd n).
Proof.
  revert r. induction ops as [|o ops IH]; intros r; [reflexivity|].
  by rewrite !exec_cons, apply_HostsAdd_comm, IH.
Qed.

Lemma processHosts_nonempty `{GoRuntime} (hosts : list Host) :
  hosts ≠ [] ->
  processHosts hosts =
    flat_map (fun host => fst (processHost host)) hosts
      ++ [HostsAdd (Z.of_nat (length hosts))].
Proof. intros Hne. rewrite processHosts_eq. by destruct hosts. Qed.

(** X2: the registry does not depend on where a list of hosts is cut into
    pages: processing [hosts1 ++ hosts2] as one page leaves the registry
    that processing [hosts1] and then [hosts2] leaves, counters included. *)
Theorem processHosts_page_split `{GoRuntime} (hosts1 hosts2 : list Host)
    (r : Registry) :
  exec (processHosts (hosts1 ++ hosts2)) r
    = exec (processHosts hosts2) (exec (processHosts hosts1) r).
Proof.
  destruct hosts1 as [|h1 hosts1]; [reflexivity|].
  destruct hosts2 as [|h2 hosts2].
  - by rewrite app_nil_r.
  - rewrite !processHosts_nonempty by done.
    rewrite flat_map_app, !exec_app.
    set (r1 := exec (flat_map (fun host => fst (processHost host)) (h1 :: hosts1)) r).
    set (ops2 := flat_map (fun host => fst (processHost host)) (h2 :: hosts2)).
    rewrite !exec_single, exec_HostsAdd_comm.
    set (r2 := exec ops2 r1). cbn [apply]. f_equal; cbn.
    rewrite length_app. cbn [length]. lia.
Qed.

(** ** Self-monitoring of a collection *)

Section SelfMonitoring.
Context `{GoRuntime}.

Lemma fetchLoop_errors_observed (fuel : nat) (up : Upstream) (config : AWXConfig)
    (url : string) (n : nat) :
  errorsCounted (fst (fetchLoop fuel up config url n))
    = (if hasFailed (snd (fetchLoop fuel up config url n)) then 1 else 0)
  /\ observed (fst (fetchLoop fuel up config url n)) = [].
Proof.
  revert url n. induction fuel as [|fuel IH]; intros url n;
    (destruct (decide (url = "")) as [->|Hne]; [by rewrite fetchLoop_done|]).
  - by rewrite fetchLoop_out_of_fuel.
  - rewrite (fetchLoop_step _ _ _ _ _ Hne).
    destruct (readPage up config n url) as [page|err]; [|done].
    cbv zeta. cbn [fst snd].
    change (Fetch url :: ?ops) with ([Fetch url] ++ ops).
    rewrite !errorsCounted_app, !observed_app.
    destruct (processHosts_quiet (HostResponse_Results page)) as (-> & -> & _).
    destruct (IH (buildURL config (HostResponse_Next page)) (S n)) as [-> ->].
    done.
Qed.

Lemma collect_errors_observed (fuel : nat) (up : Upstream) (config : AWXConfig) :
  errorsCounted (fst (collect fuel up config))
    = (if hasFailed (snd (collect fuel up config)) then 2 else 0)
  /\ observed (fst (collect fuel up config))
     = (if hasReturned (snd (collect fuel up config)) then [elapsed up] else []).
Proof.
  rewrite collect_eq, fetchAndUpdateMetrics_eq. cbv zeta. cbn [fst snd].
  rewrite !errorsCounted_app, !observed_app.
  destruct (fetchLoop_errors_observed fuel up config (startURL config) 0)
    as [-> ->].
  by destruct (snd (fetchLoop fuel up config (startURL config) 0)) as [[err|]|].
Qed.

Lemma fetchLoop_fetches_absolute (fuel : nat) (up : Upstream)
    (config : AWXConfig) (url : string) (n : nat) :
  isAbsolute url = true ->
  forallb isAbsolute (fetches (fst (fetchLoop fuel up config url n))) = true.
Proof.
  revert url n. induction fuel as [|fuel IH]; intros url n Ha.
  - rewrite fetchLoop_out_of_fuel; [done|]. by apply isAbsolute_nonempty.
  - rewrite fetchLoop_fetches by (by apply isAbsolute_nonempty).
    cbn [forallb]. rewrite Ha. cbn [andb].
    destruct (readPage up config n url) as [page|err]; [|done].
    destruct (isSentinel (HostResponse_Next page)) eqn:Hs.
    + rewrite buildURL_resolved, Hs, (isSentinel_not_absolute _ Hs).
      by rewrite fetchLoop_done.
    + apply IH. by apply buildURL_absolute.
Qed.

End SelfMonitoring.

(** X3: what one collection does to the self-monitoring metrics, whatever
    the upstream answers: [scrape_errors_total] grows by 2 when the
    collection returns an error (once in [fetchAndUpdateMetrics], once more
    in [updateMetrics]) and not at all otherwise, and the histogram gets the
    duration of the scrape exactly once, when the scrape returns. *)
Theorem collect_self_monitoring `{GoRuntime} (fuel : nat) (up : Upstream)
    (config : AWXConfig) (r : Registry) :
  let out := snd (collect fuel up config) in
  let r' := exec (fst (collect fuel up config)) r in
  scrapeErrors r' = scrapeErrors r + (if hasFailed out then 2 else 0)
  /\ scrapeDuration r'
     = scrapeDuration r ++ (if hasReturned out then [elapsed up] else []).
Proof.
  cbv zeta. rewrite scrapeErrors_exec, scrapeDuration_exec.
  by destruct (collect_errors_observed fuel up config) as [-> ->].
Qed.

(** X4: every URL a collection fetches is absolute: the first one is the
    hosts endpoint under the configured scheme and host, and each later one
    is a resolved [next] link. *)
Theorem collect_fetches_absolute `{GoRuntime} (fuel : nat) (up : Upstream)
    (config : AWXConfig) :
  forallb isAbsolute (fetches (fst (collect fuel up config))) = true
  /\ (fuel = 0%nat
      \/ exists later,
           fetches (fst (collect fuel up config))
             = resolveAgainst config "/api/v2/hosts/?format=json" :: later).
Proof.
  rewrite collect_eq, fetchAndUpdateMetrics_eq. cbv zeta. cbn [fst snd].
  rewrite !fetches_app.
  assert (fetches ResetAllMetrics = []) as -> by reflexivity.
  assert (forall out : Outcome,
            fetches match out with
                    | Returned _ => [DurationObserve (elapsed up)]
                    | Looping => []
                    end = []) as Hd by (by intros [|]).
  assert (forall out : Outcome,
            fetches match out with
                    | Returned (Some _) => RecordScrapeError
                    | _ => []
                    end = []) as He by (by intros [[|]|]).
  rewrite Hd, He, !app_nil_r. cbn [app].
  assert (startURL config = resolveAgainst config "/api/v2/hosts/?format=json")
    as Hstart by (unfold startURL; by rewrite buildURL_resolved).
  split.
  - apply fetchLoop_fetches_absolute. rewrite Hstart.
    apply resolveAgainst_absolute.
  - destruct fuel as [|fuel]; [by left|right].
    rewrite fetchLoop_fetches.
    + rewrite Hstart. by eexists.
    + rewrite Hstart. apply isAbsolute_nonempty, resolveAgainst_absolute.
Qed.

(** ** What is written, and with which labels and values *)

Lemma lastSet_In (f : Family) (lvs : list string) (ops : list Op) (v : Z) :
  lastSet f lvs ops = Some v -> In (GaugeSet f lvs v) ops.
Proof.
  induction ops as [|o ops IH]; cbn [lastSet]; [done|].
  destruct (lastSet f lvs ops) as [v'|].
  - intros Hv. right. by apply IH.
  - destruct o as [f' lvs' v'| | | | |]; try done.
    destruct (decide ((f', lvs') = (f, lvs))) as [Heq|]; [|done].
    intros [= ->]. left. by injection Heq as -> ->.
Qed.

Lemma In_lastSet (f : Family) (lvs : list string) (ops : list Op) (v : Z) :
  In (GaugeSet f lvs v) ops -> exists v', lastSet f lvs ops = Some v'.
Proof.
  induction ops as [|o ops IH]; [done|].
  intros [->|Hin]; cbn [lastSet].
  - destruct (lastSet f lvs ops); [by eexists|].
    rewrite decide_True by done. by eexists.
  - destruct (IH Hin) as [v' ->]. by eexists.
Qed.

Lemma labelsMatch_writes : HoldsOfWrites labelsMatch.
Proof. by repeat split. Qed.

Lemma valueOK_writes : HoldsOfWrites valueOK.
Proof. repeat split; try done. by intros a b c d []. Qed.

Section Written.
Context `{GoRuntime}.
Variable P : Op -> bool.
Hypothesis HP : HoldsOfWrites P.

Lemma processHostTimestamps_forallb (host : Host) (idStr : string) :
  forallb P (fst (processHostTimestamps host idStr)) = true.
Proof.
  destruct HP as (_ & _ & Hts & _).
  unfold processHostTimestamps.
  rewrite !orReturn_fst, !setTimestampMetric_eq.
  destruct (time_Parse_RFC3339 (Host_Created host)); [|reflexivity].
  destruct (time_Parse_RFC3339 (Host_Modified host));
    cbn [fst snd app forallb]; rewrite ?Hts; [|reflexivity].
  destruct (Host_AnsibleFactsModified host) as [facts|];
    cbn [fst snd app forallb ret]; rewrite ?Hts; [|reflexivity].
  rewrite orReturn_fst, setTimestampMetric_eq.
  destruct (time_Parse_RFC3339 facts); cbn [fst snd app forallb ret];
    by rewrite ?Hts.
Qed.

Lemma processHost_forallb (host : Host) :
  forallb P (fst (processHost host)) = true.
Proof.
  pose proof (processHostTimestamps_forallb host (Itoa (Host_ID host))) as Hts.
  destruct HP as (Hinfo & Hstatus & _ & Hmember & Hgroup).
  rewrite processHost_fst. cbv zeta. cbn [forallb].
  rewrite Hinfo, !forallb_app, Hts. cbn [andb].
  rewrite processHostStatus_eq. cbn [fst].
  apply andb_true_iff. split.
  - destruct (Nat.eqb (length (hostGroups host)) 0).
    + cbn [forallb]. by rewrite !Hstatus.
    + apply forallb_flat_map. intros group. cbn [forallb]. by rewrite !Hstatus.
  - destruct (snd (processHostTimestamps host (Itoa (Host_ID host))));
      [reflexivity|].
    rewrite processHostGroups_eq. cbn [fst].
    apply forallb_flat_map. intros group. cbn [forallb].
    by rewrite Hmember, Hgroup.
Qed.

Hypothesis HPadd : forall n, P (HostsAdd n) = true.

Lemma processHosts_forallb (hosts : list Host) :
  forallb P (processHosts hosts) = true.
Proof.
  rewrite processHosts_eq. destruct hosts as [|host hosts]; [reflexivity|].
  rewrite forallb_app. cbn [forallb]. rewrite HPadd.
  rewrite forallb_flat_map by apply processHost_forallb. reflexivity.
Qed.

Hypothesis HPfetch : forall url, P (Fetch url) = true.
Hypothesis HPerror : P ErrorsInc = true.

Lemma fetchLoop_forallb (fuel : nat) (up : Upstream) (config : AWXConfig)
    (url : string) (n : nat) :
  forallb P (fst (fetchLoop fuel up config url n)) = true.
Proof.
  revert url n. induction fuel as [|fuel IH]; intros url n;
    (destruct (decide (url = "")) as [->|Hne]; [by rewrite fetchLoop_done|]).
  - by rewrite fetchLoop_out_of_fuel.
  - rewrite (fetchLoop_step _ _ _ _ _ Hne).
    destruct (readPage up config n url) as [page|err].
    + cbv zeta. cbn [fst forallb].
      by rewrite HPfetch, forallb_app, processHosts_forallb, IH.
    + cbn [fst forallb]. by rewrite HPfetch, HPerror.
Qed.

Hypothesis HPobserve : forall d, P (DurationObserve d) = true.

(** A collection is the reset followed by operations that satisfy [P]. *)
Lemma collect_after_reset (fuel : nat) (up : Upstream) (config : AWXConfig) :
  exists ops,
    fst (collect fuel up config) = ResetAllMetrics ++ ops
    /\ forallb P ops = true.
Proof.
  rewrite collect_eq, fetchAndUpdateMetrics_eq. cbv zeta. cbn [fst snd].
  eexists. split; [by rewrite <- !app_assoc|].
  rewrite !forallb_app, fetchLoop_forallb.
  destruct (snd (fetchLoop fuel up config (startURL config) 0)) as [[err|]|];
    cbn [forallb RecordScrapeError andb]; by rewrite ?HPobserve, ?HPerror.
Qed.

End Written.

Section WrittenByCollections.
Context `{GoRuntime}.

Lemma collections_labelsMatch (fuel : nat) (ups : list Upstream)
    (config : AWXConfig) :
  forallb labelsMatch (collections fuel ups config) = true.
Proof.
  induction ups as [|up ups IH]; [reflexivity|]. cbn [collections].
  destruct (collect_after_reset labelsMatch labelsMatch_writes
              (fun _ => eq_refl) (fun _ => eq_refl) eq_refl (fun _ => eq_refl)
              fuel up config) as (ops & Hops & Hall).
  destruct (collect fuel up config) as [cops out]. cbn [fst] in Hops. subst cops.
  destruct out; rewrite ?forallb_app, Hall; [by rewrite IH|reflexivity].
Qed.

Lemma collect_gauges_in_range (fuel : nat) (up : Upstream) (config : AWXConfig)
    (r : Registry) (f : Family) (lvs : list string) (v : Z) :
  series (exec (fst (collect fuel up config)) r) f lvs = Some v ->
  valueInRange f v = true.
Proof.
  destruct (collect_after_reset valueOK valueOK_writes
              (fun _ => eq_refl) (fun _ => eq_refl) eq_refl (fun _ => eq_refl)
              fuel up config) as (ops & Hops & Hall).
  destruct (collect_after_reset (fun o => negb (isReset o))
              ltac:(by repeat split)
              (fun _ => eq_refl) (fun _ => eq_refl) eq_refl (fun _ => eq_refl)
              fuel up config) as (ops' & Hops' & Hnoreset).
  rewrite Hops in Hops'. apply app_inv_head in Hops'. subst ops'.
  unfold series. rewrite Hops, exec_app, gauges_exec_lookup by exact Hnoreset.
  rewrite gauges_ResetAllMetrics, lookup_empty.
  destruct (lastSet f lvs ops) as [v'|] eqn:Hlast; [|done].
  intros [= ->]. apply lastSet_In in Hlast.
  rewrite forallb_forall in Hall. exact (Hall _ Hlast).
Qed.

End WrittenByCollections.

(** X5: every gauge write of the collection loop, over any number of
    collections and whatever the upstream answers, carries exactly as many
    label values as the family has label names, so [WithLabelValues] never
    panics. *)
Theorem updateMetrics_labels_match `{GoRuntime} (fuel : nat) (initial : Upstream)
    (ticks : list Upstream) (config : AWXConfig) (interval : Z) :
  forallb labelsMatch (updateMetrics fuel initial ticks config interval) = true.
Proof.
  unfold updateMetrics. destruct (NewTicker_panics interval); [reflexivity|].
  apply collections_labelsMatch.
Qed.

(** X6: after a collection, from any registry and whatever the upstream
    answers, every series of the info, membership and group-info families
    has the value 1, and every series of the status family has the value 0
    or 1. *)
Theorem collect_values_in_range `{GoRuntime} (fuel : nat) (up : Upstream)
    (config : AWXConfig) (r : Registry) :
  forall (f : Family) (lvs : list string) (v : Z),
    series (exec (fst (collect fuel up config)) r) f lvs = Some v ->
    valueInRange f v = true.
Proof. intros f lvs v. apply collect_gauges_in_range. Qed.

Lemma collect_values_in_range_witness :
  series (exec (fst (@collect sampleRuntime 5 upstreamTwoPages sampleConfig))
            emptyRegistry)
    hostStatus ["1"; "alpha"; "inventory_sources"; "db"] = Some 0
  /\ valueInRange hostStatus 0 = true.
Proof.
  assert (series
            (exec (fst (@collect sampleRuntime 5 upstreamTwoPages sampleConfig))
               emptyRegistry)
            hostStatus ["1"; "alpha"; "inventory_sources"; "db"] = Some 0)
    as Hseries by (vm_compute; reflexivity).
  split; [exact Hseries|].
  exact (@collect_values_in_range sampleRuntime 5 upstreamTwoPages sampleConfig
           emptyRegistry hostStatus ["1"; "alpha"; "inventory_sources"; "db"] 0
           Hseries).
Defined.

Section HostInfo.
Context `{GoRuntime}.

Lemma setsOf_processHostGroups_other (f : Family) (host : Host)
    (idStr invIDStr : string) :
  f ≠ hostGroupMembership -> f ≠ groupInfo ->
  setsOf f (fst (processHostGroups host idStr invIDStr)) = [].
Proof.
  intros Hm Hg. rewrite processHostGroups_eq. cbn [fst].
  rewrite (setsOf_flat_map_groups _ _ (fun _ => [])).
  - by induction (hostGroups host).
  - by destruct f.
Qed.

Lemma processHost_info (host : Host) :
  setsOf hostInfo (fst (processHost host)) = [(hostInfoLabels host, 1)].
Proof.
  rewrite processHost_fst. cbv zeta.
  change (GaugeSet hostInfo ?l ?v :: ?ops) with ([GaugeSet hostInfo l v] ++ ops).
  rewrite !setsOf_app, setsOf_processHostStatus, setsOf_processHostTimestamps
    by done.
  destruct (snd (processHostTimestamps host (Itoa (Host_ID host)))).
  - reflexivity.
  - by rewrite setsOf_processHostGroups_other.
Qed.

Lemma processHosts_In (host : Host) (hosts : list Host) (o : Op) :
  In host hosts -> In o (fst (processHost host)) -> In o (processHosts hosts).
Proof.
  intros Hhost Ho. rewrite processHosts_eq.
  destruct hosts as [|h hosts]; [done|].
  apply in_or_app. left. apply in_flat_map. by exists host.
Qed.

End HostInfo.

(** X7: [processHost] writes the info observation of a host exactly once,
    with value 1 and the enabled flag as ["true"] or ["false"], whether or
    not its timestamps parse; and after [processHosts] every host of the
    page has its info series at 1. *)
Theorem processHost_info_always `{GoRuntime} (host : Host) (hosts : list Host)
    (r : Registry) :
  setsOf hostInfo (fst (processHost host)) = [(hostInfoLabels host, 1)]
  /\ (In host hosts ->
      series (exec (processHosts hosts) r) hostInfo (hostInfoLabels host)
        = Some 1).
Proof.
  split; [apply processHost_info|].
  intros Hin. unfold series.
  rewrite gauges_exec_lookup by apply processHosts_noreset.
  assert (In (GaugeSet hostInfo (hostInfoLabels host) 1) (processHosts hosts))
    as Hwritten.
  { apply (processHosts_In host); [exact Hin|].
    rewrite processHost_fst. by left. }
  destruct (In_lastSet _ _ _ _ Hwritten) as [v Hlast]. rewrite Hlast.
  apply lastSet_In in Hlast.
  pose proof (processHosts_forallb valueOK valueOK_writes (fun _ => eq_refl) hosts)
    as Hall.
  rewrite forallb_forall in Hall. specialize (Hall _ Hlast). cbn in Hall.
  apply Z.eqb_eq in Hall. by subst v.
Qed.

Lemma processHost_info_always_witness :
  In hostGamma [hostAlpha; hostGamma]
  /\ series (exec (@processHosts sampleRuntime [hostAlpha; hostGamma])
               emptyRegistry)
       hostInfo ["5"; "gamma"; "3"; "prod"; "true"; ""] = Some 1.
Proof.
  assert (In hostGamma [hostAlpha; hostGamma]) as Hin by (right; left; reflexivity).
  split; [exact Hin|].
  exact (proj2 (@processHost_info_always sampleRuntime hostGamma
                  [hostAlpha; hostGamma] emptyRegistry) Hin).
Defined.

Section Timestamps.
Context `{GoRuntime}.

Lemma processHostTimestamps_leading (host : Host) (idStr : string) :
  fst (processHostTimestamps host idStr) =
    map (fun et : string * Z =>
           GaugeSet hostTimestamps [idStr; Host_Name host; et.1] et.2)
      (leadingParsed (timestampFields host))
  /\ snd (processHostTimestamps host idStr)
     = firstParseError (timestampFields host).
Proof.
  unfold processHostTimestamps, timestampFields.
  rewrite !orReturn_fst, !orReturn_snd, !setTimestampMetric_eq.
  cbn [app leadingParsed firstParseError].
  destruct (time_Parse_RFC3339 (Host_Created host)); [|done].
  destruct (time_Parse_RFC3339 (Host_Modified host)); [|done].
  destruct (Host_AnsibleFactsModified host) as [facts|]; [|done].
  rewrite orReturn_fst, orReturn_snd, setTimestampMetric_eq.
  cbn [app leadingParsed firstParseError].
  by destruct (time_Parse_RFC3339 facts).
Qed.

Lemma setsOf_info_other (f : Family) (lvs : list string) (v : Z) :
  f ≠ hostInfo -> setsOf f [GaugeSet hostInfo lvs v] = [].
Proof. intros Hf. by destruct f. Qed.

Lemma setsOf_timestamp_writes (id name : string) (l : list (string * Z)) :
  setsOf hostTimestamps
    (map (fun et : string * Z => GaugeSet hostTimestamps [id; name; et.1] et.2) l)
  = map (fun et : string * Z => ([id; name; et.1], et.2)) l.
Proof. induction l as [|et l IH]; [done|]. cbn. f_equal. exact IH. Qed.

End Timestamps.

(** X8: [processHost] goes through created, modified and, when present,
    ansible_facts_modified in this order and stops at the first one that
    does not parse: the timestamps before it are written, its parse error
    is the result, and the timestamps after it, the group memberships and
    the group infos are not written.  When all of them parse the result is
    no error and each group gets its membership and its group info. *)
Theorem processHost_stops_at_first_bad_timestamp `{GoRuntime} (host : Host) :
  let idStr := Itoa (Host_ID host) in
  let invIDStr :=
    Itoa (Inventory_ID (SummaryFields_Inventory (Host_SummaryFields host))) in
  setsOf hostTimestamps (fst (processHost host)) =
    map (fun et : string * Z => ([idStr; Host_Name host; et.1], et.2))
      (leadingParsed (timestampFields host))
  /\ snd (processHost host) = firstParseError (timestampFields host)
  /\ setsOf hostGroupMembership (fst (processHost host)) =
       match firstParseError (timestampFields host) with
       | Some _ => []
       | None =>
           map (fun group =>
                  ([idStr; Host_Name host; Itoa (Group_ID group);
                    Group_Name group], 1)) (hostGroups host)
       end
  /\ setsOf groupInfo (fst (processHost host)) =
       match firstParseError (timestampFields host) with
       | Some _ => []
       | None =>
           map (fun group =>
                  ([Itoa (Group_ID group); Group_Name group; invIDStr], 1))
             (hostGroups host)
       end.
Proof.
  cbv zeta.
  destruct (processHostTimestamps_leading host (Itoa (Host_ID host)))
    as [Hfst Hsnd].
  rewrite processHost_snd, processHost_fst. cbv zeta.
  change (GaugeSet hostInfo ?l ?v :: ?ops) with ([GaugeSet hostInfo l v] ++ ops).
  rewrite !setsOf_app.
  rewrite !setsOf_processHostStatus, !(setsOf_processHostTimestamps hostGroupMembership),
    !(setsOf_processHostTimestamps groupInfo) by done.
  rewrite Hsnd, Hfst, setsOf_timestamp_writes.
  rewrite !setsOf_info_other by done. cbn [app].
  set (member := fun group : Group =>
    [GaugeSet hostGroupMembership
       [Itoa (Host_ID host); Host_Name host; Itoa (Group_ID group);
        Group_Name group] 1;
     GaugeSet groupInfo
       [Itoa (Group_ID group); Group_Name group;
        Itoa (Inventory_ID (SummaryFields_Inventory (Host_SummaryFields host)))]
       1]).
  destruct (firstParseError (timestampFields host)) as [err|].
  - repeat split; cbn; by rewrite ?app_nil_r.
  - rewrite processHostGroups_eq. cbn [fst]. fold member.
    rewrite (setsOf_flat_map_groups hostTimestamps member (fun _ => [])) by done.
    rewrite (setsOf_flat_map_groups hostGroupMembership member
               (fun group =>
                  [([Itoa (Host_ID host); Host_Name host; Itoa (Group_ID group);
                     Group_Name group], 1)])) by done.
    rewrite (setsOf_flat_map_groups groupInfo member
               (fun group =>
                  [([Itoa (Group_ID group); Group_Name group;
                     Itoa (Inventory_ID
                             (SummaryFields_Inventory (Host_SummaryFields host)))],
                    1)])) by done.
    cbn [app]. split; [|split; [|split]].
    + assert (flat_map (fun _ : Group => @nil (list string * Z)) (hostGroups host)
              = []) as -> by (by induction (hostGroups host)).
      by rewrite app_nil_r.
    + reflexivity.
    + induction (hostGroups host) as [|group groups IH]; [done|].
      cbn [flat_map map app]. by rewrite IH.
    + induction (hostGroups host) as [|group groups IH]; [done|].
      cbn [flat_map map app]. by rewrite IH.
Qed.

(** ** Successful scrapes and the collection loop *)

(** X9: when the upstream serves [pages] without error and the last of them
    has no next page, the collection returns no error (given fuel for these
    pages), fetches once per page, and leaves in every gauge series exactly
    the last value this scrape wrote to it: a series not written during
    this scrape, such as one of a host that is gone upstream, is absent
    afterwards.  No error is counted and every host read is counted. *)
Theorem successful_scrape_repopulates `{GoRuntime} (fuel : nat) (up : Upstream)
    (config : AWXConfig) (pages : list HostResponse) (n : nat) (r : Registry) :
  PagesRead up config (startURL config) 0 pages "" n ->
  (length pages <= fuel)%nat ->
  let r' := exec (fst (collect fuel up config)) r in
  snd (collect fuel up config) = Returned None
  /\ length (fetches (fst (collect fuel up config))) = length pages
  /\ (forall (f : Family) (lvs : list string),
        series r' f lvs = lastSet f lvs (transform pages))
  /\ scrapeErrors r' = scrapeErrors r
  /\ hostsProcessed r'
     = hostsProcessed r + Z.of_nat (length (flat_map HostResponse_Results pages)).
Proof.
  intros Hpages Hfuel. cbv zeta.
  destruct (collect_succeeds fuel up config pages n r Hpages Hfuel)
    as (Hout & Hfetch & ->).
  cbn [scrapeErrors hostsProcessed]. unfold series. cbn [gauges].
  repeat split; try done.
  intros f lvs. rewrite gauges_exec_lookup by apply transform_noreset.
  cbn [gauges emptyRegistry]. rewrite lookup_empty.
  by destruct (lastSet f lvs (transform pages)).
Qed.

Lemma successful_scrape_repopulates_witness :
  let previous :=
    exec (fst (@collect sampleRuntime 5 upstreamOnePage sampleConfig))
      emptyRegistry in
  let after :=
    exec (fst (@collect sampleRuntime 5 upstreamTwoPages sampleConfig))
      previous in
  snd (@collect sampleRuntime 5 upstreamTwoPages sampleConfig) = Returned None
  /\ series after hostInfo ["2"; "beta"; "3"; "prod"; "true"; ""]
     = lastSet hostInfo ["2"; "beta"; "3"; "prod"; "true"; ""]
         (@transform sampleRuntime [pageFirst; pageOnly])
  /\ series after hostInfo ["9"; "gone"; "3"; "prod"; "true"; ""] = None.
Proof.
  cbv zeta.
  assert (@PagesRead sampleRuntime upstreamTwoPages sampleConfig
            (startURL sampleConfig) 0 [pageFirst; pageOnly] "" 2) as Hpages.
  { eapply (@PagesRead_cons sampleRuntime); [discriminate|reflexivity|].
    eapply (@PagesRead_cons sampleRuntime); [discriminate|reflexivity|].
    apply (@PagesRead_nil sampleRuntime). }
  destruct (@successful_scrape_repopulates sampleRuntime 5 upstreamTwoPages
              sampleConfig [pageFirst; pageOnly] 2
              (exec (fst (@collect sampleRuntime 5 upstreamOnePage sampleConfig))
                 emptyRegistry) Hpages) as (Hout & _ & Hseries & _).
  - cbn. lia.
  - split; [exact Hout|]. split; [apply Hseries|].
    rewrite Hseries. reflexivity.
Defined.

Section Loop.
Context `{GoRuntime}.

Lemma collections_errors_observed (fuel : nat) (ups : list Upstream)
    (config : AWXConfig) :
  forallb (fun up => hasReturned (snd (collect fuel up config))) ups = true ->
  errorsCounted (collections fuel ups config)
    = 2 * Z.of_nat
            (length (List.filter
                       (fun up => hasFailed (snd (collect fuel up config))) ups))
  /\ observed (collections fuel ups config) = map elapsed ups.
Proof.
  induction ups as [|up ups IH]; [done|].
  cbn [forallb List.filter map collections]. intros Hall.
  apply andb_true_iff in Hall as [Hup Hups].
  destruct (IH Hups) as [IHe IHo].
  destruct (collect_errors_observed fuel up config) as [He Ho].
  destruct (collect fuel up config) as [ops [err|]]; [|done].
  cbn [fst snd hasReturned] in *.
  rewrite errorsCounted_app, observed_app, He, Ho, IHe, IHo.
  split; [|reflexivity].
  destruct err; cbn [hasFailed length]; lia.
Qed.

End Loop.

(** X10: [updateMetrics] first creates its ticker.  With an interval that
    is not positive [time.NewTicker] panics and nothing is collected: the
    registry is left as it was.  With a positive interval, over a run in
    which every collection returns, the histogram receives one observation
    per collection, the initial one included, in order, and
    [scrape_errors_total] grows by 2 for each collection that returned an
    error. *)
Theorem updateMetrics_self_monitoring `{GoRuntime} (fuel : nat)
    (initial : Upstream) (ticks : list Upstream) (config : AWXConfig)
    (interval : Z) (r : Registry) :
  forallb (fun up => hasReturned (snd (collect fuel up config)))
    (initial :: ticks) = true ->
  let r' := exec (updateMetrics fuel initial ticks config interval) r in
  if NewTicker_panics interval then r' = r
  else
    scrapeDuration r' = scrapeDuration r ++ map elapsed (initial :: ticks)
    /\ scrapeErrors r'
       = scrapeErrors r
         + 2 * Z.of_nat
                 (length (List.filter
                            (fun up => hasFailed (snd (collect fuel up config)))
                            (initial :: ticks))).
Proof.
  intros Hall. cbv zeta. unfold updateMetrics.
  destruct (NewTicker_panics interval); [reflexivity|].
  rewrite scrapeDuration_exec, scrapeErrors_exec.
  by destruct (collections_errors_observed fuel (initial :: ticks) config Hall)
    as [-> ->].
Qed.

Lemma updateMetrics_self_monitoring_witness :
  (let r' :=
     exec (@updateMetrics sampleRuntime 5 upstreamOnePage
             [upstreamCutSecondPage; upstreamTwoPages] sampleConfig
             (getScrapeInterval (sampleEnv (Some "15"))))
       emptyRegistry in
   scrapeDuration r' = [1200000000; 2500000000; 1800000000]
   /\ scrapeErrors r' = 2)
  /\ exec (@updateMetrics sampleRuntime 5 upstreamOnePage
             [upstreamCutSecondPage; upstreamTwoPages] sampleConfig
             (getScrapeInterval (sampleEnv (Some "153722868"))))
       emptyRegistry
     = emptyRegistry.
Proof.
  split.
  - exact (@updateMetrics_self_monitoring sampleRuntime 5 upstreamOnePage
             [upstreamCutSecondPage; upstreamTwoPages] sampleConfig
             (getScrapeInterval (sampleEnv (Some "15"))) emptyRegistry eq_refl).
  - exact (@updateMetrics_self_monitoring sampleRuntime 5 upstreamOnePage
             [upstreamCutSecondPage; upstreamTwoPages] sampleConfig
             (getScrapeInterval (sampleEnv (Some "153722868"))) emptyRegistry
             eq_refl).
Defined.

(** ** Configuration *)

Lemma getEnvOrDefault_empty (env : Env) (key : string) :
  getEnvOrDefault env key "" = Getenv env key.
Proof.
  unfold getEnvOrDefault.
  destruct (String.eqb_spec (Getenv env key) "") as [->|]; reflexivity.
Qed.

Lemma getEnvAsBool_false (env : Env) (key : string) :
  getEnvAsBool env key false = String.eqb (Getenv env key) "true".
Proof.
  unfold getEnvAsBool.
  destruct (String.eqb_spec (Getenv env key) "") as [->|]; reflexivity.
Qed.

(** X11: [loadConfig] succeeds exactly when [AWX_HOST], [AWX_USER] and
    [AWX_PASSWORD] are all set and not empty; the configuration then holds
    their values, and plain HTTP and skipping TLS verification are switched
    on only by the exact value ["true"].  Otherwise the process exits with
    a message naming the first of the three that is missing, in this
    order, and [main] starts serving in the first case only. *)
Theorem loadConfig_requires_credentials (env : Env) :
  loadConfig env =
    (if credentialsPresent env then
       Ok {| AWXConfig_Host := Getenv env "AWX_HOST";
             AWXConfig_User := Getenv env "AWX_USER";
             AWXConfig_Password := Getenv env "AWX_PASSWORD";
             AWXConfig_UseHTTP := String.eqb (Getenv env "HTTP") "true";
             AWXConfig_TLSInsecure :=
               String.eqb (Getenv env "TLS_INSECURE") "true" |}
     else
       Err ("Configuration error: "
            +:+ (if String.eqb (Getenv env "AWX_HOST") "" then "AWX_HOST"
                 else if String.eqb (Getenv env "AWX_USER") "" then "AWX_USER"
                 else "AWX_PASSWORD")
            +:+ " environment variable is required"))
  /\ match main env with
     | Fatal _ => credentialsPresent env = false
     | Serving _ _ _ => credentialsPresent env = true
     end.
Proof.
  assert (loadConfig env =
    (if credentialsPresent env then
       Ok {| AWXConfig_Host := Getenv env "AWX_HOST";
             AWXConfig_User := Getenv env "AWX_USER";
             AWXConfig_Password := Getenv env "AWX_PASSWORD";
             AWXConfig_UseHTTP := String.eqb (Getenv env "HTTP") "true";
             AWXConfig_TLSInsecure :=
               String.eqb (Getenv env "TLS_INSECURE") "true" |}
     else
       Err ("Configuration error: "
            +:+ (if String.eqb (Getenv env "AWX_HOST") "" then "AWX_HOST"
                 else if String.eqb (Getenv env "AWX_USER") "" then "AWX_USER"
                 else "AWX_PASSWORD")
            +:+ " environment variable is required"))) as Hload.
  { unfold loadConfig, validateConfig, credentialsPresent.
    cbn [AWXConfig_Host AWXConfig_User AWXConfig_Password].
    rewrite !getEnvOrDefault_empty, !getEnvAsBool_false.
    destruct (String.eqb (Getenv env "AWX_HOST") ""); [reflexivity|].
    destruct (String.eqb (Getenv env "AWX_USER") ""); [reflexivity|].
    by destruct (String.eqb (Getenv env "AWX_PASSWORD") ""). }
  split; [exact Hload|].
  unfold main. rewrite Hload. by destruct (credentialsPresent env).
Qed.

(** X12: when [SCRAPE_INTERVAL] is a positive number of minutes,
    [getScrapeInterval] returns that many minutes in nanoseconds as long as
    the number is at most 153722867; from 153722868 up to 307445734 the
    [int64] product wraps and the interval returned is negative. *)
Theorem getScrapeInterval_minutes (env : Env) (minutes : Z) :
  Atoi (Getenv env "SCRAPE_INTERVAL") = Some minutes ->
  0 < minutes ->
  getScrapeInterval env = wrap64 (minutes * Minute)
  /\ (minutes <= maxMinutes ->
      getScrapeInterval env = minutes * Minute /\ 0 < getScrapeInterval env)
  /\ (maxMinutes < minutes <= 2 * maxMinutes -> getScrapeInterval env < 0).
Proof.
  intros Hatoi Hpos.
  assert (getScrapeInterval env = wrap64 (minutes * Minute)) as ->.
  { unfold getScrapeInterval.
    destruct (String.eqb_spec (Getenv env "SCRAPE_INTERVAL") "") as [Hempty|_].
    - rewrite Hempty in Hatoi. discriminate.
    - cbn [negb]. rewrite Hatoi.
      by destruct (Z.ltb_spec 0 minutes); [|lia]. }
  unfold wrap64, maxMinutes, Minute, Second.
  change (2 ^ 63) with 9223372036854775808.
  change (2 ^ 64) with 18446744073709551616.
  split; [reflexivity|]. split; intros Hrange.
  - rewrite Z.mod_small by lia. lia.
  - replace (minutes * (60 * 1000000000) + 9223372036854775808)
      with (minutes * (60 * 1000000000) - 9223372036854775808
            + 1 * 18446744073709551616) by lia.
    rewrite Z_mod_plus_full, Z.mod_small by lia. lia.
Qed.

Lemma getScrapeInterval_minutes_witness :
  getScrapeInterval (sampleEnv (Some "15")) = 15 * Minute
  /\ getScrapeInterval (sampleEnv (Some "153722868")) < 0.
Proof.
  destruct (getScrapeInterval_minutes (sampleEnv (Some "15")) 15 eq_refl
              eq_refl) as (_ & Hfits & _).
  destruct (getScrapeInterval_minutes (sampleEnv (Some "153722868")) 153722868
              eq_refl eq_refl) as (_ & _ & Hwraps).
  split.
  - apply Hfits. unfold maxMinutes. lia.
  - apply Hwraps. unfold maxMinutes. lia.
Defined.

(** ** Pages of job templates *)

Section JobTemplatePages.
Context `{GoRuntime}.

Lemma scrapeTemplate_lookup (template : JobTemplates.JobTemplate)
    (r : gmap (JobTemplates.Family * list string) Z)
    (f : JobTemplates.Family) (lvs : list string) :
  JobTemplates.exec (JobTemplates.scrapeTemplate template) r !! (f, lvs) =
    if decide (lvs = templateLabels template) then
      match f with
      | JobTemplates.inventoryFailedHosts =>
          Some (JobTemplates.Inventory_HostsWithFailures
                  (JobTemplates.SummaryFields_Inventory
                     (JobTemplates.JobTemplate_SummaryFields template)))
      | JobTemplates.inventoryTotalHosts =>
          Some (JobTemplates.Inventory_TotalHosts
                  (JobTemplates.SummaryFields_Inventory
                     (JobTemplates.JobTemplate_SummaryFields template)))
      | JobTemplates.jobLastRunTimestamp =>
          if String.eqb (JobTemplates.JobTemplate_LastJobRun template) ""
          then r !! (f, lvs)
          else
            match time_Parse_RFC3339
                    (JobTemplates.JobTemplate_LastJobRun template) with
            | Ok finishedTime => Some finishedTime
            | Err _ => r !! (f, lvs)
            end
      end
    else r !! (f, lvs).
Proof.
  unfold JobTemplates.scrapeTemplate, templateLabels.
  set (labels := [Itoa (JobTemplates.JobTemplate_ID template);
                  JobTemplates.JobTemplate_Name template]).
  rewrite JobTemplates_exec_app.
  set (r1 := JobTemplates.exec _ r).
  cbn [JobTemplates.exec foldl JobTemplates.apply].
  assert (forall lvs', f ≠ JobTemplates.jobLastRunTimestamp \/ lvs' ≠ labels ->
            r1 !! (f, lvs') = r !! (f, lvs')) as Hframe.
  { intros lvs' Hother. subst r1.
    destruct (negb (String.eqb (JobTemplates.JobTemplate_LastJobRun template) ""));
      [|reflexivity].
    destruct (time_Parse_RFC3339 (JobTemplates.JobTemplate_LastJobRun template));
      [|reflexivity].
    cbn [JobTemplates.exec foldl JobTemplates.apply]. apply lookup_insert_ne.
    intros [= <- <-]. by destruct Hother. }
  destruct (decide (lvs = labels)) as [->|Hne].
  - destruct f.
    + rewrite !lookup_insert_ne by congruence. subst r1.
      destruct (String.eqb (JobTemplates.JobTemplate_LastJobRun template) "");
        cbn [negb]; [reflexivity|].
      destruct (time_Parse_RFC3339
                  (JobTemplates.JobTemplate_LastJobRun template));
        [|reflexivity].
      cbn [JobTemplates.exec foldl JobTemplates.apply].
      by rewrite lookup_insert_eq.
    + rewrite lookup_insert_ne by congruence. by rewrite lookup_insert_eq.
    + by rewrite lookup_insert_eq.
  - rewrite !lookup_insert_ne by congruence. apply Hframe. by right.
Qed.

Lemma scrapeTemplates_frame (templates : list JobTemplates.JobTemplate)
    (r : gmap (JobTemplates.Family * list string) Z)
    (f : JobTemplates.Family) (lvs : list string) :
  lvs ∉ templateLabels <$> templates ->
  JobTemplates.exec (flat_map JobTemplates.scrapeTemplate templates) r !! (f, lvs)
    = r !! (f, lvs).
Proof.
  revert r. induction templates as [|t ts IH]; intros r Hnot; [reflexivity|].
  rewrite fmap_cons in Hnot. apply not_elem_of_cons in Hnot as [Hne Hnot].
  cbn [flat_map]. rewrite JobTemplates_exec_app, (IH _ Hnot).
  rewrite scrapeTemplate_lookup. by rewrite decide_False.
Qed.

End JobTemplatePages.

(** X13: when the templates of a decoded page have pairwise different
    (id, name) labels, then after the page every template of it has its
    failed-host and total-host series at the numbers of its own inventory
    summary, and its last-run series at its parsed [last_job_run], or as it
    was before the page when [last_job_run] is empty or does not parse. *)
Theorem scrapePage_distinct_templates `{GoRuntime}
    (response : JobTemplates.JobTemplateResponse)
    (template : JobTemplates.JobTemplate)
    (r : gmap (JobTemplates.Family * list string) Z) :
  NoDup (templateLabels <$> JobTemplates.JobTemplateResponse_Results response) ->
  template ∈ JobTemplates.JobTemplateResponse_Results response ->
  let summary :=
    JobTemplates.SummaryFields_Inventory
      (JobTemplates.JobTemplate_SummaryFields template) in
  let r' := JobTemplates.exec (JobTemplates.scrapePage response) r in
  r' !! (JobTemplates.inventoryFailedHosts, templateLabels template)
    = Some (JobTemplates.Inventory_HostsWithFailures summary)
  /\ r' !! (JobTemplates.inventoryTotalHosts, templateLabels template)
     = Some (JobTemplates.Inventory_TotalHosts summary)
  /\ r' !! (JobTemplates.jobLastRunTimestamp, templateLabels template)
     = (if String.eqb (JobTemplates.JobTemplate_LastJobRun template) ""
        then r !! (JobTemplates.jobLastRunTimestamp, templateLabels template)
        else
          match time_Parse_RFC3339
                  (JobTemplates.JobTemplate_LastJobRun template) with
          | Ok finishedTime => Some finishedTime
          | Err _ =>
              r !! (JobTemplates.jobLastRunTimestamp, templateLabels template)
          end).
Proof.
  unfold JobTemplates.scrapePage. cbv zeta.
  revert r.
  induction (JobTemplates.JobTemplateResponse_Results response) as [|t ts IH];
    intros r Hnodup Hin; [by apply elem_of_nil in Hin|].
  rewrite fmap_cons in Hnodup. apply NoDup_cons in Hnodup as [Hfresh Hnodup].
  cbn [flat_map]. rewrite !JobTemplates_exec_app.
  apply elem_of_cons in Hin as [->|Hin].
  - rewrite !(scrapeTemplates_frame _ _ _ _ Hfresh).
    rewrite !scrapeTemplate_lookup. by rewrite !decide_True.
  - destruct (IH (JobTemplates.exec (JobTemplates.scrapeTemplate t) r)
                Hnodup Hin) as (Hfailed & Htotal & Hlast).
    split; [exact Hfailed|]. split; [exact Htotal|].
    rewrite Hlast.
    assert (templateLabels template ≠ templateLabels t) as Hne.
    { intros Heq. apply Hfresh. rewrite <- Heq.
      by apply list_elem_of_fmap_2. }
    rewrite scrapeTemplate_lookup. by rewrite decide_False.
Qed.

Lemma scrapePage_distinct_templates_witness :
  JobTemplates.exec (@JobTemplates.scrapePage sampleRuntime sampleTemplatePage) ∅
    !! (JobTemplates.inventoryTotalHosts, ["11"; "deploy"]) = Some 40
  /\ JobTemplates.exec (@JobTemplates.scrapePage sampleRuntime sampleTemplatePage) ∅
       !! (JobTemplates.jobLastRunTimestamp, ["11"; "deploy"]) = None.
Proof.
  assert (NoDup (templateLabels
                   <$> JobTemplates.JobTemplateResponse_Results sampleTemplatePage))
    as Hnodup.
  { apply NoDup_cons. split; [|apply NoDup_singleton].
    intros Hin. apply list_elem_of_singleton in Hin. discriminate. }
  assert (sampleTemplate "last week"
            ∈ JobTemplates.JobTemplateResponse_Results sampleTemplatePage)
    as Hin by apply list_elem_of_here.
  destruct (@scrapePage_distinct_templates sampleRuntime sampleTemplatePage
              (sampleTemplate "last week") ∅ Hnodup Hin)
    as (_ & Htotal & Hlast).
  split; [exact Htotal | exact Hlast].
Defined.

(** ** The earlier exporter and the current one *)

Lemma LegacyWalker_buildURL_nonempty (config : AWXConfig) (path : string) :
  LegacyWalker.buildURL config path ≠ "".
Proof. unfold LegacyWalker.buildURL. by destruct (AWXConfig_UseHTTP config). Qed.

Section LegacyLoop.
Context `{GoRuntime}.

Lemma LegacyWalker_fetchLoop_outcome (fuel : nat) (up : Upstream)
    (config : AWXConfig) (url : string) (n : nat) :
  url ≠ "" ->
  snd (LegacyWalker.fetchLoop fuel up config url n) = Looping
  \/ exists err,
       snd (LegacyWalker.fetchLoop fuel up config url n) = Returned (Some err).
Proof.
  revert url n. induction fuel as [|fuel IH]; intros url n Hne;
    apply String.eqb_neq in Hne; cbn [LegacyWalker.fetchLoop]; rewrite Hne.
  - by left.
  - destruct (LegacyWalker.makeAWXRequest up config n url) as [ops [body|err]];
      cbn [bind]; [|right; by eexists].
    destruct (json_Unmarshal body) as [page|err]; [|right; by eexists].
    cbn [bind emit].
    specialize (IH (LegacyWalker.buildURL config (HostResponse_Next page)) (S n)
                  (LegacyWalker_buildURL_nonempty _ _)).
    destruct (LegacyWalker.fetchLoop fuel up config
                (LegacyWalker.buildURL config (HostResponse_Next page)) (S n))
      as [ops' out].
    exact IH.
Qed.

Lemma processHostTimestamps_as_legacy (host : Host) (idStr : string) :
  snd (processHostTimestamps host idStr) = None ->
  fst (processHostTimestamps host idStr) =
    Legacy.setTimestampMetric (Host_Created host) idStr (Host_Name host) "created"
    ++ Legacy.setTimestampMetric (Host_Modified host) idStr (Host_Name host)
         "modified"
    ++ match Host_AnsibleFactsModified host with
       | Some factsModified =>
           Legacy.setTimestampMetric factsModified idStr (Host_Name host)
             "ansible_facts_modified"
       | None => []
       end.
Proof.
  unfold processHostTimestamps, Legacy.setTimestampMetric.
  rewrite !orReturn_fst, !orReturn_snd, !setTimestampMetric_eq.
  destruct (time_Parse_RFC3339 (Host_Created host)); [|done].
  destruct (time_Parse_RFC3339 (Host_Modified host)); [|done].
  destruct (Host_AnsibleFactsModified host) as [facts|]; [|done].
  rewrite orReturn_fst, orReturn_snd, setTimestampMetric_eq.
  by destruct (time_Parse_RFC3339 facts).
Qed.

End LegacyLoop.

(** X14: the earlier exporter's [fetchAndUpdateMetrics] never returns
    without an error: its [buildURL] prefixes scheme and host to every
    [next] value, the empty one included, so the URL of the loop is never
    empty and the loop is only left through an error return. *)
Theorem legacy_scrape_never_succeeds `{GoRuntime} (fuel : nat) (up : Upstream)
    (config : AWXConfig) :
  snd (LegacyWalker.fetchAndUpdateMetrics fuel up config) = Looping
  \/ exists err,
       snd (LegacyWalker.fetchAndUpdateMetrics fuel up config)
         = Returned (Some err).
Proof.
  unfold LegacyWalker.fetchAndUpdateMetrics. cbn [bind emit].
  pose proof (LegacyWalker_fetchLoop_outcome fuel up config
                (LegacyWalker.buildURL config "/api/v2/hosts/?format=json") 0
                (LegacyWalker_buildURL_nonempty _ _)) as Hout.
  destruct (LegacyWalker.fetchLoop fuel up config
              (LegacyWalker.buildURL config "/api/v2/hosts/?format=json") 0)
    as [ops out].
  exact Hout.
Qed.

(** X15: for a host on which the current [processHost] returns no error,
    it writes to every family other than the status family exactly what
    the earlier exporter writes for that host, in the same order. *)
Theorem processHost_agrees_with_legacy `{GoRuntime} (host : Host) (f : Family) :
  snd (processHost host) = None ->
  f ≠ hostStatus ->
  setsOf f (fst (processHost host)) = setsOf f (Legacy.processHosts [host]).
Proof.
  rewrite processHost_snd. intros Hok Hf.
  rewrite processHost_fst. cbv zeta.
  rewrite Hok, (processHostTimestamps_as_legacy _ _ Hok), processHostGroups_eq.
  cbn [fst]. unfold Legacy.processHosts. cbn [flat_map]. rewrite app_nil_r.
  change (GaugeSet hostInfo ?l ?v :: ?ops) with ([GaugeSet hostInfo l v] ++ ops).
  rewrite !setsOf_app, setsOf_processHostStatus by done.
  cbn [app].
  assert (forall l1 v1 l2 v2,
            setsOf f [GaugeSet hostStatus l1 v1; GaugeSet hostStatus l2 v2] = [])
    as -> by (intros; by destruct f).
  by rewrite app_nil_r, <- !app_assoc.
Qed.

Lemma processHost_agrees_with_legacy_witness :
  setsOf hostTimestamps (fst (@processHost sampleRuntime hostAlpha))
    = setsOf hostTimestamps (@Legacy.processHosts sampleRuntime [hostAlpha]).
Proof.
  apply (@processHost_agrees_with_legacy sampleRuntime hostAlpha hostTimestamps);
    [reflexivity | discriminate].
Defined.

Section LegacyTimestamps.
Context `{GoRuntime}.

Lemma setsOf_legacy_timestamp (f : Family) (timestampStr id name event : string) :
  setsOf f (Legacy.setTimestampMetric timestampStr id name event) =
    match time_Parse_RFC3339 timestampStr with
    | Ok timestamp =>
        if decide (hostTimestamps = f) then [([id; name; event], timestamp)] else []
    | Err _ => []
    end.
Proof.
  unfold Legacy.setTimestampMetric.
  destruct (time_Parse_RFC3339 timestampStr); [|reflexivity].
  cbn. by rewrite app_nil_r.
Qed.

End LegacyTimestamps.

(** X16: the earlier exporter handles every timestamp of a host on its own:
    each of created, modified and ansible_facts_modified that parses is
    written, whether or not the others parse, and the group membership and
    group info of every group are written in any case. *)
Theorem legacy_timestamps_independent `{GoRuntime} (host : Host) :
  let idStr := Itoa (Host_ID host) in
  let invIDStr :=
    Itoa (Inventory_ID (SummaryFields_Inventory (Host_SummaryFields host))) in
  setsOf hostTimestamps (Legacy.processHosts [host]) =
    map (fun et : string * Z => ([idStr; Host_Name host; et.1], et.2))
      (allParsed (timestampFields host))
  /\ setsOf hostGroupMembership (Legacy.processHosts [host]) =
       map (fun group =>
              ([idStr; Host_Name host; Itoa (Group_ID group); Group_Name group],
               1)) (hostGroups host)
  /\ setsOf groupInfo (Legacy.processHosts [host]) =
       map (fun group =>
              ([Itoa (Group_ID group); Group_Name group; invIDStr], 1))
         (hostGroups host).
Proof.
  cbv zeta. unfold Legacy.processHosts. cbn [flat_map]. rewrite app_nil_r.
  set (member := fun group : Group =>
    [GaugeSet hostGroupMembership
       [Itoa (Host_ID host); Host_Name host; Itoa (Group_ID group);
        Group_Name group] 1;
     GaugeSet groupInfo
       [Itoa (Group_ID group); Group_Name group;
        Itoa (Inventory_ID (SummaryFields_Inventory (Host_SummaryFields host)))]
       1]).
  rewrite !setsOf_app, !setsOf_legacy_timestamp.
  assert (forall f,
            setsOf f match Host_AnsibleFactsModified host with
                     | Some factsModified =>
                         Legacy.setTimestampMetric factsModified
                           (Itoa (Host_ID host)) (Host_Name host)
                           "ansible_facts_modified"
                     | None => []
                     end
            = match Host_AnsibleFactsModified host with
              | Some factsModified =>
                  match time_Parse_RFC3339 factsModified with
                  | Ok timestamp =>
                      if decide (hostTimestamps = f) then
                        [([Itoa (Host_ID host); Host_Name host;
                           "ansible_facts_modified"], timestamp)]
                      else []
                  | Err _ => []
                  end
              | None => []
              end) as Hfacts.
  { intros f. destruct (Host_AnsibleFactsModified host); [|reflexivity].
    apply setsOf_legacy_timestamp. }
  rewrite !Hfacts.
  rewrite (setsOf_flat_map_groups hostTimestamps member (fun _ => [])) by done.
  rewrite (setsOf_flat_map_groups hostGroupMembership member
             (fun group =>
                [([Itoa (Host_ID host); Host_Name host; Itoa (Group_ID group);
                   Group_Name group], 1)])) by done.
  rewrite (setsOf_flat_map_groups groupInfo member
             (fun group =>
                [([Itoa (Group_ID group); Group_Name group;
                   Itoa (Inventory_ID
                           (SummaryFields_Inventory (Host_SummaryFields host)))],
                  1)])) by done.
  assert (flat_map (fun _ : Group => @nil (list string * Z)) (hostGroups host)
          = []) as -> by (by induction (hostGroups host)).
  unfold timestampFields. cbn [app allParsed].
  split; [|split].
  - destruct (time_Parse_RFC3339 (Host_Created host));
      destruct (time_Parse_RFC3339 (Host_Modified host));
      destruct (Host_AnsibleFactsModified host) as [facts|];
      cbn [app allParsed]; try destruct (time_Parse_RFC3339 facts);
      reflexivity.
  - destruct (time_Parse_RFC3339 (Host_Created host));
      destruct (time_Parse_RFC3339 (Host_Modified host));
      destruct (Host_AnsibleFactsModified host) as [facts|];
      try destruct (time_Parse_RFC3339 facts); cbn [app setsOf flat_map];
      (induction (hostGroups host) as [|group groups IH]; [done|];
       cbn [flat_map map app]; by rewrite <- IH).
  - destruct (time_Parse_RFC3339 (Host_Created host));
      destruct (time_Parse_RFC3339 (Host_Modified host));
      destruct (Host_AnsibleFactsModified host) as [facts|];
      try destruct (time_Parse_RFC3339 facts); cbn [app setsOf flat_map];
      (induction (hostGroups host) as [|group groups IH]; [done|];
       cbn [flat_map map app]; by rewrite <- IH).
Qed.

(** ** Group series of a page *)

Section GroupSeries.
Context `{GoRuntime}.

(** A write of value 1 to an info-style family by some host of the page
    leaves that series at 1 after the page. *)
Lemma processHosts_series_one (hosts : list Host) (r : Registry) (f : Family)
    (lvs : list string) :
  f ≠ hostStatus -> f ≠ hostTimestamps ->
  In (GaugeSet f lvs 1) (processHosts hosts) ->
  series (exec (processHosts hosts) r) f lvs = Some 1.
Proof.
  intros Hs Ht Hwritten. unfold series.
  rewrite gauges_exec_lookup by apply processHosts_noreset.
  destruct (In_lastSet _ _ _ _ Hwritten) as [v Hlast]. rewrite Hlast.
  apply lastSet_In in Hlast.
  pose proof (processHosts_forallb valueOK valueOK_writes (fun _ => eq_refl) hosts)
    as Hall.
  rewrite forallb_forall in Hall. specialize (Hall _ Hlast). cbn in Hall.
  destruct f; try done; apply Z.eqb_eq in Hall; by subst v.
Qed.

End GroupSeries.

(** X17: after [processHosts], for every host of the page on which
    [processHost] returned no error and for every group of that host, the
    membership series of the host in that group and the group-info series
    of that group in the host's inventory are present with value 1. *)
Theorem processHosts_group_series `{GoRuntime} (hosts : list Host) (host : Host)
    (group : Group) (r : Registry) :
  In host hosts ->
  snd (processHost host) = None ->
  In group (hostGroups host) ->
  series (exec (processHosts hosts) r) hostGroupMembership
    [Itoa (Host_ID host); Host_Name host; Itoa (Group_ID group); Group_Name group]
    = Some 1
  /\ series (exec (processHosts hosts) r) groupInfo
       [Itoa (Group_ID group); Group_Name group;
        Itoa (Inventory_ID (SummaryFields_Inventory (Host_SummaryFields host)))]
     = Some 1.
Proof.
  intros Hhost Hok Hgroup.
  assert (forall o,
            In o [GaugeSet hostGroupMembership
                    [Itoa (Host_ID host); Host_Name host; Itoa (Group_ID group);
                     Group_Name group] 1;
                  GaugeSet groupInfo
                    [Itoa (Group_ID group); Group_Name group;
                     Itoa (Inventory_ID
                             (SummaryFields_Inventory (Host_SummaryFields host)))]
                    1] ->
            In o (processHosts hosts)) as Hwritten.
  { intros o Ho. apply (processHosts_In host); [exact Hhost|].
    rewrite processHost_fst. cbv zeta.
    rewrite processHost_snd in Hok. rewrite Hok, processHostGroups_eq. cbn [fst].
    right. apply in_or_app. right. apply in_or_app. right.
    apply in_flat_map. by exists group. }
  split; apply processHosts_series_one; try done; apply Hwritten.
  - by left.
  - right. by left.
Qed.

Lemma processHosts_group_series_witness :
  series (exec (@processHosts sampleRuntime [hostAlpha; hostGamma]) emptyRegistry)
    hostGroupMembership ["1"; "alpha"; "8"; "db"] = Some 1
  /\ series (exec (@processHosts sampleRuntime [hostAlpha; hostGamma])
               emptyRegistry)
       groupInfo ["8"; "db"; "3"] = Some 1.
Proof.
  apply (@processHosts_group_series sampleRuntime [hostAlpha; hostGamma]
           hostAlpha groupDb emptyRegistry).
  - left. reflexivity.
  - reflexivity.
  - right. left. reflexivity.
Defined.

(** ** The scrape of the job-template exporter *)

Lemma JobTemplates_resets_empty (r : gmap (JobTemplates.Family * list string) Z) :
  JobTemplates.exec
    [JobTemplates.VecReset JobTemplates.jobLastRunTimestamp;
     JobTemplates.VecReset JobTemplates.inventoryFailedHosts;
     JobTemplates.VecReset JobTemplates.inventoryTotalHosts] r = ∅.
Proof.
  apply map_eq. intros [f lvs]. rewrite lookup_empty.
  cbn [JobTemplates.exec foldl JobTemplates.apply].
  apply eq_None_not_Some. intros [v Hv].
  repeat (apply map_lookup_filter_Some in Hv as [Hv ?]).
  simpl in *. destruct f; congruence.
Qed.

Section JobScrapeLoop.
Context `{GoRuntime} `{JobScrape.URLRuntime}.

Lemma scrapeLoop_done (fuel : nat) (up : Upstream) (base : JobScrape.URL)
    (n : nat) :
  JobScrape.scrapeLoop fuel up base "" n = ([], true).
Proof. by destruct fuel. Qed.

(** One iteration of the loop at a non-empty path. *)
Lemma scrapeLoop_step (fuel : nat) (up : Upstream) (base : JobScrape.URL)
    (path : string) (n : nat) :
  path ≠ "" ->
  JobScrape.scrapeLoop (S fuel) up base path n =
    match readTemplatePage up base n path with
    | None => ([], true)
    | Some response =>
        let rest :=
          JobScrape.scrapeLoop fuel up base
            (JobTemplates.JobTemplateResponse_Next response) (S n) in
        (JobTemplates.scrapePage response ++ fst rest, snd rest)
    end.
Proof.
  intros Hne. apply String.eqb_neq in Hne.
  cbn [JobScrape.scrapeLoop]. rewrite Hne. unfold readTemplatePage. cbv zeta.
  destruct (http_NewRequest (JobScrape.url_Resolve base path)); [reflexivity|].
  destruct (Do up n (JobScrape.url_Resolve base path)) as [resp|];
    [|reflexivity].
  destruct (negb (StatusCode resp =? StatusOK)); [reflexivity|].
  destruct (BodyErr resp); [reflexivity|].
  destruct (JobScrape.json_Unmarshal_templates (Body resp)) as [response|];
    [|reflexivity].
  by destruct (JobScrape.scrapeLoop fuel up base
                 (JobTemplates.JobTemplateResponse_Next response) (S n)).
Qed.

Lemma scrapeLoop_reads (up : Upstream) (base : JobScrape.URL) (path : string)
    (n : nat) (pages : list JobTemplates.JobTemplateResponse) (path' : string)
    (n' : nat) :
  TemplatePagesRead up base path n pages path' n' ->
  forall fuel : nat,
    JobScrape.scrapeLoop (length pages + fuel) up base path n =
      (flat_map JobTemplates.scrapePage pages
         ++ fst (JobScrape.scrapeLoop fuel up base path' n'),
       snd (JobScrape.scrapeLoop fuel up base path' n')).
Proof.
  induction 1 as [path n|path n page pages path' n' Hne Hread _ IH];
    intros fuel.
  - cbn [length Nat.add flat_map app].
    by destruct (JobScrape.scrapeLoop fuel up base path n).
  - cbn [length Nat.add flat_map].
    rewrite (scrapeLoop_step _ _ _ _ _ Hne), Hread, IH. cbv zeta. cbn [fst snd].
    by rewrite app_assoc.
Qed.

Lemma scrapeLoop_stops (fuel : nat) (up : Upstream) (base : JobScrape.URL)
    (path : string) (n : nat) :
  path = "" \/ readTemplatePage up base n path = None ->
  JobScrape.scrapeLoop (S fuel) up base path n = ([], true).
Proof.
  intros Hstop. destruct (decide (path = "")) as [->|Hne].
  - apply scrapeLoop_done.
  - destruct Hstop as [?|Hfail]; [done|].
    by rewrite (scrapeLoop_step _ _ _ _ _ Hne), Hfail.
Qed.

End JobScrapeLoop.

(** X18: [scrapeAWX] resets its three families before anything else.  When
    [AWX_URL] does not parse it does nothing more and leaves the registry
    empty.  Otherwise, when the upstream serves [pages] one after the
    other from the job-templates endpoint and then either there is no next
    page or the next request, read or decoding fails, the scrape ends
    (given fuel for these pages and one more) having written, after the
    resets, exactly the template observations of these pages: the registry
    holds what they wrote on an empty registry and nothing of what was
    there before, and the failure is not reported. *)
Theorem scrapeAWX_replaces_registry `{GoRuntime} `{JobScrape.URLRuntime}
    (fuel : nat) (up : Upstream) (appConfig : JobTemplates.Config) :
  let resets :=
    [JobTemplates.VecReset JobTemplates.jobLastRunTimestamp;
     JobTemplates.VecReset JobTemplates.inventoryFailedHosts;
     JobTemplates.VecReset JobTemplates.inventoryTotalHosts] in
  match JobScrape.url_Parse (JobTemplates.Config_AWXURL appConfig) with
  | Err _ =>
      JobScrape.scrapeAWX fuel up appConfig = (resets, true)
      /\ forall r : gmap (JobTemplates.Family * list string) Z,
           JobTemplates.exec (fst (JobScrape.scrapeAWX fuel up appConfig)) r = ∅
  | Ok base =>
      forall (pages : list JobTemplates.JobTemplateResponse) (path : string)
             (n : nat),
        TemplatePagesRead up base "/api/v2/job_templates" 0 pages path n ->
        path = "" \/ readTemplatePage up base n path = None ->
        (length pages < fuel)%nat ->
        JobScrape.scrapeAWX fuel up appConfig
          = (resets ++ flat_map JobTemplates.scrapePage pages, true)
        /\ forall r : gmap (JobTemplates.Family * list string) Z,
             JobTemplates.exec (fst (JobScrape.scrapeAWX fuel up appConfig)) r
               = JobTemplates.exec (flat_map JobTemplates.scrapePage pages) ∅
  end.
Proof.
  cbv zeta. unfold JobScrape.scrapeAWX. cbv zeta.
  destruct (JobScrape.url_Parse (JobTemplates.Config_AWXURL appConfig))
    as [base|err].
  - intros pages path n Hpages Hstop Hfuel.
    assert (exists k, fuel = (length pages + S k)%nat) as [k ->]
      by (exists (fuel - length pages - 1)%nat; lia).
    rewrite (scrapeLoop_reads _ _ _ _ _ _ _ Hpages (S k)).
    rewrite (scrapeLoop_stops _ _ _ _ _ Hstop). cbn [fst snd].
    rewrite app_nil_r. split; [reflexivity|].
    intros r. by rewrite JobTemplates_exec_app, JobTemplates_resets_empty.
  - split; [reflexivity|]. intros r. cbn [fst].
    by rewrite JobTemplates_resets_empty.
Qed.

Lemma scrapeAWX_replaces_registry_witness :
  JobTemplates.exec
    (fst (@JobScrape.scrapeAWX sampleRuntime sampleURLRuntime 3
            (upstreamStatus 200 "200 OK" "{templates}")
            (sampleJobConfig "https://awx")))
    {[ (JobTemplates.inventoryTotalHosts, ["99"; "retired"]) := 5 ]}
  = JobTemplates.exec (@JobTemplates.scrapePage sampleRuntime sampleTemplatePage) ∅
  /\ JobTemplates.exec
       (fst (@JobScrape.scrapeAWX sampleRuntime sampleURLRuntime 3
               (upstreamStatus 200 "200 OK" "{templates}")
               (sampleJobConfig "awx")))
       {[ (JobTemplates.inventoryTotalHosts, ["99"; "retired"]) := 5 ]}
     = ∅.
Proof.
  assert (@TemplatePagesRead sampleRuntime sampleURLRuntime
            (upstreamStatus 200 "200 OK" "{templates}") "https://awx"
            "/api/v2/job_templates" 0 [sampleTemplatePage] "" 1) as Hpages.
  { eapply (@TemplatePagesRead_cons sampleRuntime sampleURLRuntime);
      [discriminate|reflexivity|].
    apply (@TemplatePagesRead_nil sampleRuntime sampleURLRuntime). }
  split.
  - destruct (@scrapeAWX_replaces_registry sampleRuntime sampleURLRuntime 3
                (upstreamStatus 200 "200 OK" "{templates}")
                (sampleJobConfig "https://awx") [sampleTemplatePage] "" 1%nat
                Hpages (or_introl eq_refl)) as [_ Hexec].
    + cbn. lia.
    + rewrite Hexec. cbn [flat_map]. by rewrite app_nil_r.
  - exact (proj2 (@scrapeAWX_replaces_registry sampleRuntime sampleURLRuntime 3
                    (upstreamStatus 200 "200 OK" "{templates}")
                    (sampleJobConfig "awx")) _).
Defined.
